(** * Prompt Studio: the category store and the template renderer

    A shallow embedding of [storage.py] and [models.py]:
    - [PromptStorage.list_categories], [get_category], [save_category],
      [get_all_prompts], [test_prompt_rendering], [backup_category];
    - the pydantic models [PromptTemplate] and [PromptCategory].

    The library code the storage manager calls is modelled next to it, each
    in its own module: Python's [string.Template] (module [Template]), the
    [json] encoder and decoder (module [Json]), the parts of [pathlib] and
    of text-mode file I/O the manager uses (module [Fs]).

    Text is a [string]: a sequence of 8-bit characters.  A character outside
    ASCII stands for the bytes of its UTF-8 encoding, which is also what the
    files hold ([encoding='utf-8']).  The library is that of Python 3.11 and
    3.12 ([Template.get_identifiers] exists from 3.11 on). *)

From Stdlib Require Import ZArith Ascii String List.
From Stdlib Require Import DecimalFacts DecimalPos DecimalZ.
From stdpp Require Import gmap strings list sorting.

Local Open Scope Z_scope.
Local Open Scope stdpp_scope.

(** ** Strings *)

Module Str.

(** [s.endswith(suffix)] *)
Fixpoint endswith (s suffix : string) : bool :=
  if bool_decide (s = suffix) then true
  else match s with
       | "" => false
       | String _ r => endswith r suffix
       end.

(** [ch in s] *)
Fixpoint contains (ch : ascii) (s : string) : bool :=
  match s with
  | "" => false
  | String c r => if bool_decide (c = ch) then true else contains ch r
  end.

(** [s[:len(s) - n]] *)
Definition drop_end (n : nat) (s : string) : string :=
  String.substring 0 (String.length s - n) s.

(** [''.join(l)] *)
Definition join (l : list string) : string := foldr String.app "" l.

(** The decimal digit [d]. *)
Definition digit (d : N) : ascii := ascii_of_N (48 + d)%N.

(** The part of [s] after its last [ch] (all of [s] when it has none). *)
Fixpoint after_last (ch : ascii) (s : string) : string :=
  match s with
  | "" => ""
  | String c r => if contains ch s then after_last ch r else s
  end.

(** [s[-1]], when [s] is not empty. *)
Fixpoint last_char (s : string) : option ascii :=
  match s with
  | "" => None
  | String c "" => Some c
  | String _ r => last_char r
  end.

End Str.

(** ** Results of Python calls

    A call either returns a value or raises.  [try ... except Exception]
    is [try_except]. *)

Inductive exn : Type :=
  | FileNotFoundError
  | PermissionError
  | IsADirectoryError
  | JSONDecodeError
  | AttributeError
  | TypeError
  | ValueError
  | ValidationError.

(** [str(e)].  The model keeps the class of an exception and not the text
    of its message; the class name stands for it. *)
Definition str_exn (e : exn) : string :=
  match e with
  | FileNotFoundError => "FileNotFoundError"
  | PermissionError => "PermissionError"
  | IsADirectoryError => "IsADirectoryError"
  | JSONDecodeError => "JSONDecodeError"
  | AttributeError => "AttributeError"
  | TypeError => "TypeError"
  | ValueError => "ValueError"
  | ValidationError => "ValidationError"
  end.

Inductive outcome (A : Type) : Type :=
  | Ret (a : A)
  | Raise (e : exn).
Arguments Ret {A} a.
Arguments Raise {A} e.

#[export] Instance outcome_ret : MRet outcome := @Ret.
#[export] Instance outcome_bind : MBind outcome := λ A B k m,
  match m with
  | Ret a => k a
  | Raise e => Raise e
  end.

#[export] Instance outcome_fmap : FMap outcome := λ A B f m,
  match m with
  | Ret a => Ret (f a)
  | Raise e => Raise e
  end.

Definition try_except {A} (m : outcome A) (handler : exn → outcome A) : outcome A :=
  match m with
  | Ret a => Ret a
  | Raise e => handler e
  end.

(** [str(value)]: the string form of a Python value. *)
Class PyStr (V : Type) := py_str : V → string.
#[export] Instance PyStr_string : PyStr string := fun s => s.

(** ** Python sets of strings

    The code turns lists into [set]s and back.  A [set] iterates in the
    order of its hash table, which depends on the (per-process salted)
    string hashes and on the insertions made.  A [set_layout] stands for
    that dependency: it maps the sequence of insertions to the iteration
    order of the resulting set.  All a program may rely on is that the
    result holds each inserted element once. *)

Record set_layout : Type := SetLayout {
  set_iter : list string → list string;
  set_iter_perm : ∀ l, set_iter l ≡ₚ remove_dups l
}.

(** A layout: the strings in lexicographic order (the order of a
    process whose string hashes happen to grow with the strings). *)
Definition sorted_layout : set_layout :=
  {| set_iter := λ l, merge_sort String.le (remove_dups l);
     set_iter_perm := λ l, merge_sort_Permutation String.le (remove_dups l) |}.

Module PySet.
Section ops.
Context (L : set_layout).

(** A set is represented by its elements in iteration order. *)
Definition t : Type := list string.

(** [set(l)] *)
Definition of_list (l : list string) : t := set_iter L l.

(** [a - b]: a new set, filled from the elements of [a], in [a]'s
    iteration order, that are not in [b]. *)
Definition difference (a b : t) : t :=
  set_iter L (filter (λ x, x ∉ b) a).

(** [list(s)] *)
Definition to_list (s : t) : list string := s.

End ops.
End PySet.

(** ** [string.Template]

    The class attribute [Template.pattern], compiled with [re.IGNORECASE],
    matches a dollar sign followed by the first that fits of
    - [escaped]: a second dollar sign;
    - [named]: an identifier, that is one of [_a-z] and then as many of
      [_a-z0-9] as follow (ASCII only);
    - [braced]: an identifier between [{] and [}];
    - [invalid]: nothing.
    The alternatives are tried in this order at every dollar sign, so a
    match is determined by the text that follows the dollar sign. *)

Module Template.

(** [[_a-z]] under [re.IGNORECASE], ASCII only. *)
Definition is_id_start (c : ascii) : bool :=
  let n := N_of_ascii c in
  ((97 <=? n) && (n <=? 122) || (65 <=? n) && (n <=? 90) || (n =? 95))%N.

(** [[_a-z0-9]] under [re.IGNORECASE], ASCII only. *)
Definition is_id_char (c : ascii) : bool :=
  let n := N_of_ascii c in
  (is_id_start c || (48 <=? n) && (n <=? 57))%N.

(** The longest prefix of identifier characters (the greedy [[_a-z0-9]*])
    and what follows it. *)
Fixpoint span_id (s : string) : string * string :=
  match s with
  | String c r =>
      if is_id_char c then let '(id, rest) := span_id r in (String c id, rest)
      else ("", s)
  | "" => ("", "")
  end.

(** A match object of [Template.pattern], by the group that matched. *)
Inductive match_object : Type :=
  | Escaped
  | Named (id : string)
  | Braced (id : string)
  | Invalid.

(** [mo.group()]: the text the match covers. *)
Definition group (mo : match_object) : string :=
  match mo with
  | Escaped => "$$"
  | Named id => "$" +:+ id
  | Braced id => "${" +:+ id +:+ "}"
  | Invalid => "$"
  end.

(** [mo.group('named') or mo.group('braced')] *)
Definition named_or_braced (mo : match_object) : option string :=
  match mo with
  | Named id | Braced id => Some id
  | Escaped | Invalid => None
  end.

(** The match that starts at a dollar sign followed by [rest], and the
    number of characters of [rest] it covers. *)
Definition match_at (rest : string) : match_object * nat :=
  match rest with
  | String "$" _ => (Escaped, 1%nat)
  | String "{" r =>
      match r with
      | String c _ =>
          if is_id_start c then
            let '(id, after) := span_id r in
            match after with
            | String "}" _ => (Braced id, (String.length id + 2)%nat)
            | _ => (Invalid, 0%nat)
            end
          else (Invalid, 0%nat)
      | "" => (Invalid, 0%nat)
      end
  | String c _ =>
      if is_id_start c then
        let '(id, _) := span_id rest in (Named id, String.length id)
      else (Invalid, 0%nat)
  | "" => (Invalid, 0%nat)
  end.

(** The template cut at its matches: the matches in order, and between
    them the characters no match covers. *)
Inductive segment : Type :=
  | Lit (c : ascii)
  | Match (mo : match_object).

(** Left-to-right scan; [skip] counts the characters still covered by the
    last match. *)
Fixpoint scan (skip : nat) (s : string) : list segment :=
  match s with
  | "" => []
  | String c r =>
      match skip with
      | S k => scan k r
      | O =>
          if bool_decide (c = "$"%char) then
            let '(mo, n) := match_at r in Match mo :: scan n r
          else Lit c :: scan 0 r
      end
  end.

(** The text of the template a segment stands for. *)
Definition written (seg : segment) : string :=
  match seg with
  | Lit c => String c ""
  | Match mo => group mo
  end.

(** The identifier of a segment that is a placeholder. *)
Definition placeholder (seg : segment) : option string :=
  match seg with
  | Lit _ => None
  | Match mo => named_or_braced mo
  end.

(** [pattern.finditer(template)] *)
Definition finditer (template : string) : list match_object :=
  omap (λ seg, match seg with Match mo => Some mo | Lit _ => None end)
       (scan 0 template).

(** [pattern.sub(convert, template)] *)
Definition sub (convert : match_object → string) (template : string) : string :=
  foldr (λ seg out,
           match seg with
           | Lit c => String c out
           | Match mo => convert mo +:+ out
           end) "" (scan 0 template).

(** [Template.get_identifiers]: every named or braced identifier, added
    the first time it appears.  (The [ValueError] branch of the library
    function needs a match with none of the four groups, which
    [Template.pattern] cannot produce.) *)
Definition get_identifiers (template : string) : list string :=
  foldl (λ ids mo,
           match named_or_braced mo with
           | Some named => if bool_decide (named ∈ ids) then ids else ids ++ [named]
           | None => ids
           end) [] (finditer template).

Section substitute.
Context {V : Type} `{PyStr V}.

(** The [convert] closure of [Template.safe_substitute]. *)
Definition convert (mapping : gmap string V) (mo : match_object) : string :=
  match named_or_braced mo with
  | Some named =>
      match mapping !! named with
      | Some v => py_str v
      | None => group mo
      end
  | None =>
      match mo with
      | Escaped => "$"
      | _ => group mo
      end
  end.

(** [Template(template).safe_substitute], the mapping given as keywords. *)
Definition safe_substitute (mapping : gmap string V) (template : string) : string :=
  sub (convert mapping) template.

(** What a segment of the template becomes in the output. *)
Definition replacement (mapping : gmap string V) (seg : segment) : string :=
  match seg with
  | Lit c => String c ""
  | Match mo => convert mapping mo
  end.

End substitute.

(** The identifiers in the order of their first appearance, as the spec
    words it: each one where it first occurs. *)
Fixpoint distinct_in_order (l : list string) : list string :=
  match l with
  | [] => []
  | x :: l => x :: filter (λ y, y ≠ x) (distinct_in_order l)
  end.

(** Every named or braced identifier of the template, with repeats. *)
Definition placeholders (template : string) : list string :=
  omap named_or_braced (finditer template).

Definition add_identifier (ids : list string) (named : string) : list string :=
  if bool_decide (named ∈ ids) then ids else ids ++ [named].

(** Which dollar signs are invalid matches: those followed by no
    second dollar sign, no start of an identifier and no brace. *)
Definition plain_after (r : string) : Prop :=
  match r with
  | "" => True
  | String c _ => c ≠ "$"%char ∧ is_id_start c = false ∧ c ≠ "{"%char
  end.

End Template.

(** ** Python dictionaries with string keys

    A [dict] keeps its items in insertion order and its keys distinct:
    storing under a key that is present replaces the value in place. *)

Module Dict.
Section dict.
Context {V : Type}.

Definition t : Type := list (string * V).

(** [d.get(key)] *)
Fixpoint get (d : list (string * V)) (key : string) : option V :=
  match d with
  | [] => None
  | (k, v) :: rest => if bool_decide (k = key) then Some v else get rest key
  end.

(** [d[key] = value] *)
Fixpoint set (d : list (string * V)) (key : string) (value : V) : list (string * V) :=
  match d with
  | [] => [(key, value)]
  | (k, v) :: rest =>
      if bool_decide (k = key) then (k, value) :: rest
      else (k, v) :: set rest key value
  end.

(** [dict(pairs)] *)
Definition of_pairs (pairs : list (string * V)) : list (string * V) :=
  foldl (λ d kv, set d kv.1 kv.2) [] pairs.

(** [list(d.keys())] *)
Definition keys (d : list (string * V)) : list string := d.*1.

(** The invariant of a [dict]: no key twice. *)
Definition wf (d : list (string * V)) : Prop := NoDup (keys d).

End dict.
End Dict.

(** ** The [json] module

    [Json.dumps] is [json.dump(data, f, indent=2, ensure_ascii=False)] for
    the text written to [f]; [Json.loads] is [json.load(f)] applied to the
    text read from [f]. *)

Module Json.

#[local] Set Warnings "-register-all".

(** The Python values the decoder builds.  A float is kept as the text
    of its literal. *)
Inductive value : Type :=
  | Null
  | Bool (b : bool)
  | Int (n : Z)
  | Float (literal : string)
  | Str (s : string)
  | Arr (items : list value)
  | Obj (members : list (string * value)).

(** *** Encoder *)

Fixpoint digits (u : Decimal.uint) : string :=
  match u with
  | Decimal.Nil => ""
  | Decimal.D0 u => String "0" (digits u)
  | Decimal.D1 u => String "1" (digits u)
  | Decimal.D2 u => String "2" (digits u)
  | Decimal.D3 u => String "3" (digits u)
  | Decimal.D4 u => String "4" (digits u)
  | Decimal.D5 u => String "5" (digits u)
  | Decimal.D6 u => String "6" (digits u)
  | Decimal.D7 u => String "7" (digits u)
  | Decimal.D8 u => String "8" (digits u)
  | Decimal.D9 u => String "9" (digits u)
  end.

(** [int.__repr__] *)
Definition repr_int (n : Z) : string :=
  match Z.to_int n with
  | Decimal.Pos u => digits u
  | Decimal.Neg u => String "-" (digits u)
  end.

Definition quote : ascii := "034"%char.
Definition backslash : ascii := "092"%char.

Definition hex_char (d : N) : ascii :=
  if (d <? 10)%N then ascii_of_N (48 + d)%N else ascii_of_N (87 + d)%N.

(** The replacement [ESCAPE_DCT] gives for one character: the short
    escapes, four hexadecimal digits after a backslash and [u] for the
    other characters below 0x20; any other character stands for itself. *)
Definition escape_char (c : ascii) : string :=
  let n := N_of_ascii c in
  if bool_decide (c = backslash) then String backslash (String backslash "")
  else if bool_decide (c = quote) then String backslash (String quote "")
  else if (n =? 8)%N then String backslash "b"
  else if (n =? 12)%N then String backslash "f"
  else if (n =? 10)%N then String backslash "n"
  else if (n =? 13)%N then String backslash "r"
  else if (n =? 9)%N then String backslash "t"
  else if (n <? 32)%N then
    String backslash (String "u" (String "0" (String "0"
      (String (hex_char (n / 16)%N) (String (hex_char (n mod 16)%N) "")))))
  else String c "".

Fixpoint escape (s : string) : string :=
  match s with
  | "" => ""
  | String c r => escape_char c +:+ escape r
  end.

(** [py_encode_basestring] *)
Definition encode_basestring (s : string) : string :=
  String quote (escape s +:+ String quote "").

Fixpoint spaces (n : nat) : string :=
  match n with
  | O => ""
  | S n => String " " (spaces n)
  end.

(** [newline_indent] at a nesting level, for [indent=2]. *)
Definition newline_indent (level : nat) : string :=
  String "010" (spaces (2 * level)).

(** [_iterencode], joined; [level] is [_current_indent_level]. *)
Fixpoint encode (level : nat) (v : value) : string :=
  match v with
  | Null => "null"
  | Bool true => "true"
  | Bool false => "false"
  | Int n => repr_int n
  | Float literal => literal
  | Str s => encode_basestring s
  | Arr [] => "[]"
  | Arr (x :: xs) =>
      "[" +:+ newline_indent (S level) +:+ encode (S level) x +:+
      (fix rest (xs : list value) : string :=
         match xs with
         | [] => ""
         | y :: ys =>
             "," +:+ newline_indent (S level) +:+ encode (S level) y +:+ rest ys
         end) xs +:+
      newline_indent level +:+ "]"
  | Obj [] => "{}"
  | Obj ((k, x) :: xs) =>
      "{" +:+ newline_indent (S level) +:+
      encode_basestring k +:+ ": " +:+ encode (S level) x +:+
      (fix rest (xs : list (string * value)) : string :=
         match xs with
         | [] => ""
         | (k, y) :: ys =>
             "," +:+ newline_indent (S level) +:+
             encode_basestring k +:+ ": " +:+ encode (S level) y +:+ rest ys
         end) xs +:+
      newline_indent level +:+ "}"
  end.

Definition dumps (v : value) : string := encode 0 v.

(** The items of an array after the first, as [encode] writes them. *)
Definition encode_items (level : nat) : list value → string :=
  fix rest (xs : list value) : string :=
    match xs with
    | [] => ""
    | y :: ys =>
        "," +:+ newline_indent (S level) +:+ encode (S level) y +:+ rest ys
    end.

(** The members of an object after the first, as [encode] writes them. *)
Definition encode_members (level : nat) : list (string * value) → string :=
  fix rest (xs : list (string * value)) : string :=
    match xs with
    | [] => ""
    | (k, y) :: ys =>
        "," +:+ newline_indent (S level) +:+
        encode_basestring k +:+ ": " +:+ encode (S level) y +:+ rest ys
    end.

(** The values the decoder gives back as they are: without floats, and
    with the keys of every object distinct (as in a [dict]). *)
Fixpoint plain (v : value) : Prop :=
  match v with
  | Float _ => False
  | Arr items =>
      (fix all (xs : list value) : Prop :=
         match xs with
         | [] => True
         | x :: xs => plain x ∧ all xs
         end) items
  | Obj members =>
      NoDup members.*1 ∧
      (fix all (xs : list (string * value)) : Prop :=
         match xs with
         | [] => True
         | (_, x) :: xs => plain x ∧ all xs
         end) members
  | _ => True
  end.

(** The number of values, items and members in a value: a bound on the
    depth of the decoder's calls. *)
Fixpoint weight (v : value) : nat :=
  match v with
  | Arr items =>
      S ((fix sum (xs : list value) : nat :=
            match xs with
            | [] => O
            | x :: xs => S (weight x + sum xs)
            end) items)
  | Obj members =>
      S ((fix sum (xs : list (string * value)) : nat :=
            match xs with
            | [] => O
            | (_, x) :: xs => S (weight x + sum xs)
            end) members)
  | _ => 1%nat
  end.

(** *** Decoder *)

(** [WHITESPACE]: space, tab, line feed, carriage return. *)
Definition is_ws (c : ascii) : bool :=
  let n := N_of_ascii c in
  ((n =? 32) || (n =? 9) || (n =? 10) || (n =? 13))%N.

Fixpoint skip_ws (s : string) : string :=
  match s with
  | String c r => if is_ws c then skip_ws r else s
  | "" => ""
  end.

Definition hex_val (c : ascii) : option N :=
  let n := N_of_ascii c in
  if ((48 <=? n) && (n <=? 57))%N then Some (n - 48)%N
  else if ((97 <=? n) && (n <=? 102))%N then Some (n - 87)%N
  else if ((65 <=? n) && (n <=? 70))%N then Some (n - 55)%N
  else None.

(** [_decode_uXXXX]: exactly four hexadecimal digits. *)
Definition hex4 (a b c d : ascii) : option N :=
  a ← hex_val a; b ← hex_val b; c ← hex_val c; d ← hex_val d;
  Some (((a * 16 + b) * 16 + c) * 16 + d)%N.

(** [chr(cp)], as the bytes of its UTF-8 encoding (a lone surrogate is
    encoded like any other code point of its range). *)
Definition utf8 (cp : N) : string :=
  let cont (n : N) := ascii_of_N (128 + n mod 64)%N in
  if (cp <? 128)%N then String (ascii_of_N cp) ""
  else if (cp <? 2048)%N then
    String (ascii_of_N (192 + cp / 64)%N) (String (cont cp) "")
  else if (cp <? 65536)%N then
    String (ascii_of_N (224 + cp / 4096)%N)
      (String (cont (cp / 64)%N) (String (cont cp) ""))
  else
    String (ascii_of_N (240 + cp / 262144)%N)
      (String (cont (cp / 4096)%N) (String (cont (cp / 64)%N) (String (cont cp) ""))).

Definition is_high_surrogate (cp : N) : bool := ((55296 <=? cp) && (cp <=? 56319))%N.
Definition is_low_surrogate (cp : N) : bool := ((56320 <=? cp) && (cp <=? 57343))%N.

Definition prepend (chunk : string) (r : option (string * string)) : option (string * string) :=
  match r with
  | Some (s, rest) => Some (chunk +:+ s, rest)
  | None => None
  end.

(** [scanstring] in strict mode, from just after the opening quote:
    the decoded string and the text after the closing quote. *)
Fixpoint scanstring (s : string) : option (string * string) :=
  match s with
  | "" => None
  | String c r =>
      if bool_decide (c = quote) then Some ("", r)
      else if bool_decide (c = backslash) then
        match r with
        | "" => None
        | String e r1 =>
            if bool_decide (e = "u"%char) then
              match r1 with
              | String h1 (String h2 (String h3 (String h4 r2))) =>
                  match hex4 h1 h2 h3 h4 with
                  | None => None
                  | Some uni =>
                      if is_high_surrogate uni then
                        match r2 with
                        | String b2 (String u2 (String l1 (String l2 (String l3 (String l4 r3))))) =>
                            match hex4 l1 l2 l3 l4 with
                            | Some uni2 =>
                                if bool_decide (b2 = backslash) && bool_decide (u2 = "u"%char)
                                   && is_low_surrogate uni2
                                then prepend
                                       (utf8 (65536 + ((uni - 55296) * 1024 + (uni2 - 56320)))%N)
                                       (scanstring r3)
                                else prepend (utf8 uni) (scanstring r2)
                            | None => prepend (utf8 uni) (scanstring r2)
                            end
                        | _ => prepend (utf8 uni) (scanstring r2)
                        end
                      else prepend (utf8 uni) (scanstring r2)
                  end
              | _ => None
              end
            else if bool_decide (e = quote) then prepend (String quote "") (scanstring r1)
            else if bool_decide (e = backslash) then prepend (String backslash "") (scanstring r1)
            else if bool_decide (e = "/"%char) then prepend "/" (scanstring r1)
            else if bool_decide (e = "b"%char) then prepend (String "008" "") (scanstring r1)
            else if bool_decide (e = "f"%char) then prepend (String "012" "") (scanstring r1)
            else if bool_decide (e = "n"%char) then prepend (String "010" "") (scanstring r1)
            else if bool_decide (e = "r"%char) then prepend (String "013" "") (scanstring r1)
            else if bool_decide (e = "t"%char) then prepend (String "009" "") (scanstring r1)
            else None
        end
      else if (N_of_ascii c <? 32)%N then None
      else prepend (String c "") (scanstring r)
  end.

Definition is_digit (c : ascii) : bool :=
  let n := N_of_ascii c in ((48 <=? n) && (n <=? 57))%N.

(** The longest prefix of decimal digits and what follows it. *)
Fixpoint span_digits (s : string) : string * string :=
  match s with
  | String c r =>
      if is_digit c then let '(ds, rest) := span_digits r in (String c ds, rest)
      else ("", s)
  | "" => ("", "")
  end.

Definition cons_digit (c : ascii) (u : Decimal.uint) : Decimal.uint :=
  match (N_of_ascii c - 48)%N with
  | 0%N => Decimal.D0 u | 1%N => Decimal.D1 u | 2%N => Decimal.D2 u
  | 3%N => Decimal.D3 u | 4%N => Decimal.D4 u | 5%N => Decimal.D5 u
  | 6%N => Decimal.D6 u | 7%N => Decimal.D7 u | 8%N => Decimal.D8 u
  | _ => Decimal.D9 u
  end.

Fixpoint uint_of_digits (ds : string) : Decimal.uint :=
  match ds with
  | "" => Decimal.Nil
  | String c r => cons_digit c (uint_of_digits r)
  end.

(** The optional fraction of [NUMBER_RE]: a dot and at least one digit. *)
Definition lex_frac (s : string) : string * string :=
  match s with
  | String "." (String d _ as r) =>
      if is_digit d then let '(ds, rest) := span_digits r in (String "." ds, rest)
      else ("", s)
  | _ => ("", s)
  end.

(** The optional exponent of [NUMBER_RE]: [e] or [E], an optional sign
    and at least one digit. *)
Definition lex_exp (s : string) : string * string :=
  match s with
  | String e r =>
      if bool_decide (e = "e"%char) || bool_decide (e = "E"%char) then
        let '(sign, r1) :=
          match r with
          | String "+" r1 => ("+", r1)
          | String "-" r1 => ("-", r1)
          | _ => ("", r)
          end in
        match r1 with
        | String d _ =>
            if is_digit d then
              let '(ds, rest) := span_digits r1 in (String e (sign +:+ ds), rest)
            else ("", s)
        | "" => ("", s)
        end
      else ("", s)
  | "" => ("", s)
  end.

(** [NUMBER_RE.match]: an integer part ([0], or a digit other than [0]
    and the digits after it) with an optional minus sign, fraction and
    exponent.  Without fraction and exponent the number is an [int]. *)
Definition scan_number (s : string) : option (value * string) :=
  let '(negative, s1) :=
    match s with
    | String "-" r => (true, r)
    | _ => (false, s)
    end in
  match s1 with
  | String c r =>
      if is_digit c then
        let '(int_text, s2) :=
          if bool_decide (c = "0"%char) then ("0", r) else span_digits s1 in
        let '(frac, s3) := lex_frac s2 in
        let '(exp, s4) := lex_exp s3 in
        if bool_decide (frac = "") && bool_decide (exp = "") then
          let u := uint_of_digits int_text in
          Some (Int (Z.of_int (if negative then Decimal.Neg u else Decimal.Pos u)), s4)
        else
          Some (Float ((if negative then "-" else "") +:+ int_text +:+ frac +:+ exp), s4)
      else None
  | "" => None
  end.

(** [s.startswith(word)], giving the text after [word]. *)
Fixpoint strip_prefix (word s : string) : option string :=
  match word, s with
  | "", _ => Some s
  | String a word, String b s => if bool_decide (a = b) then strip_prefix word s else None
  | String _ _, "" => None
  end.

Definition scan_constant (s : string) : option (value * string) :=
  match strip_prefix "null" s with Some r => Some (Null, r) | None =>
  match strip_prefix "true" s with Some r => Some (Bool true, r) | None =>
  match strip_prefix "false" s with Some r => Some (Bool false, r) | None =>
  match scan_number s with Some r => Some r | None =>
  match strip_prefix "NaN" s with Some r => Some (Float "NaN", r) | None =>
  match strip_prefix "Infinity" s with Some r => Some (Float "Infinity", r) | None =>
  match strip_prefix "-Infinity" s with Some r => Some (Float "-Infinity", r) | None =>
  None
  end end end end end end end.

(** [scan_once], [JSONObject] and [JSONArray].  Each call is made after
    at least one more character has been read, so [fuel] above the
    length of the text never runs out.
    - [scan_once fuel s]: the value at the start of [s];
    - [members fuel s pairs]: the rest of an object, from just after
      the opening quote of a key;
    - [elements fuel s items]: the rest of an array, from the start of
      an item. *)
Fixpoint scan_once (fuel : nat) (s : string) : option (value * string) :=
  match fuel with
  | O => None
  | S fuel =>
      match s with
      | "" => None
      | String c r =>
          if bool_decide (c = quote) then
            '(str, rest) ← scanstring r; Some (Str str, rest)
          else if bool_decide (c = "{"%char) then
            match skip_ws r with
            | String q r1 =>
                if bool_decide (q = "}"%char) then Some (Obj [], r1)
                else if bool_decide (q = quote) then members fuel r1 []
                else None
            | "" => None
            end
          else if bool_decide (c = "["%char) then
            match skip_ws r with
            | String "]" r1 => Some (Arr [], r1)
            | r1 => elements fuel r1 []
            end
          else scan_constant s
      end
  end
with members (fuel : nat) (s : string) (pairs : list (string * value))
    : option (value * string) :=
  match fuel with
  | O => None
  | S fuel =>
      '(key, r) ← scanstring s;
      match skip_ws r with
      | String ":" r =>
          '(v, r) ← scan_once fuel (skip_ws r);
          let pairs := pairs ++ [(key, v)] in
          match skip_ws r with
          | String "}" r => Some (Obj (Dict.of_pairs pairs), r)
          | String "," r =>
              match skip_ws r with
              | String q r => if bool_decide (q = quote) then members fuel r pairs else None
              | "" => None
              end
          | _ => None
          end
      | _ => None
      end
  end
with elements (fuel : nat) (s : string) (items : list value)
    : option (value * string) :=
  match fuel with
  | O => None
  | S fuel =>
      '(v, r) ← scan_once fuel s;
      match skip_ws r with
      | String "]" r => Some (Arr (items ++ [v]), r)
      | String "," r => elements fuel (skip_ws r) (items ++ [v])
      | _ => None
      end
  end.

(** [JSONDecoder.decode]: one value, white space around it, nothing
    else.  [None] stands for a [JSONDecodeError]. *)
Definition loads (s : string) : option value :=
  match scan_once (S (String.length s)) (skip_ws s) with
  | Some (v, rest) => if bool_decide (skip_ws rest = "") then Some v else None
  | None => None
  end.

(** The text after a run of digits: it starts with no digit. *)
Definition no_digit_ahead (rest : string) : Prop :=
  match rest with
  | "" => True
  | String c _ => is_digit c = false
  end.

(** The text after a value inside [encode]'s output: nothing, a comma
    or a line feed. *)
Definition ends_number (rest : string) : Prop :=
  match rest with
  | "" => True
  | String c _ => c = ","%char ∨ c = "010"%char
  end.

(** [plain], [weight] on the items of an array and on the members of
    an object. *)
Definition plain_items : list value → Prop :=
  fix all (xs : list value) : Prop :=
    match xs with
    | [] => True
    | x :: xs => plain x ∧ all xs
    end.

Definition plain_members : list (string * value) → Prop :=
  fix all (xs : list (string * value)) : Prop :=
    match xs with
    | [] => True
    | (_, x) :: xs => plain x ∧ all xs
    end.

Definition weight_items : list value → nat :=
  fix sum (xs : list value) : nat :=
    match xs with
    | [] => O
    | x :: xs => S (weight x + sum xs)
    end.

Definition weight_members : list (string * value) → nat :=
  fix sum (xs : list (string * value)) : nat :=
    match xs with
    | [] => O
    | (_, x) :: xs => S (weight x + sum xs)
    end.

(** Text that starts with neither white space nor a closing bracket. *)
Definition starts_value (s : string) : Prop :=
  match s with
  | String c _ => is_ws c = false ∧ c ≠ "]"%char
  | "" => False
  end.

(** What [members] does after the value of a member. *)
Definition members_next (f : nat) (pairs : list (string * value)) (r : string)
    : option (value * string) :=
  match skip_ws r with
  | String "}" r => Some (Obj (Dict.of_pairs pairs), r)
  | String "," r =>
      match skip_ws r with
      | String q r => if bool_decide (q = quote) then members f r pairs else None
      | "" => None
      end
  | _ => None
  end.

End Json.

(** ** Files and paths

    The store lives in the directory [prompts_dir].  The model holds what
    the program can reach from there: a finite map from a path, written
    relative to [prompts_dir] as the program writes it, to the node found
    there.  Two spellings of one location (["a.json"] and ["./a.json"])
    are two paths of the model, and every directory a path goes through
    is taken to exist and to be open to this process; the operations
    below use one spelling per file.  Line ends are those of a POSIX
    system: writing in text mode leaves a line feed as it is. *)

Module Fs.

(** A regular file with its text and whether this process may open it
    for reading and for writing, or a directory. *)
Inductive node : Type :=
  | File (text : string) (readable writable : bool)
  | Dir.

(** A completed write: the path and the text the file holds after it. *)
Inductive event : Type :=
  | Wrote (path text : string).

(** The files, and the writes made so far, oldest first. *)
Record world : Type := World {
  files : gmap string node;
  journal : list event
}.

(** [path.exists()] *)
Definition exists_ (w : world) (path : string) : bool :=
  bool_decide (is_Some (files w !! path)).

(** What reading in text mode does to line ends (universal newlines):
    a carriage return, with the line feed after it if there is one,
    reads as a line feed. *)
Fixpoint universal_newlines (s : string) : string :=
  match s with
  | "" => ""
  | String c r =>
      if bool_decide (c = "013"%char) then
        match r with
        | String "010" r1 => String "010" (universal_newlines r1)
        | _ => String "010" (universal_newlines r)
        end
      else String c (universal_newlines r)
  end.

(** Text without a carriage return. *)
Definition no_cr (s : string) : Prop := Str.contains "013" s = false.

(** [open(path, 'r', encoding='utf-8')] and [read()] *)
Definition read_text (w : world) (path : string) : outcome string :=
  match files w !! path with
  | Some (File text true _) => Ret (universal_newlines text)
  | Some (File _ false _) => Raise PermissionError
  | Some Dir => Raise IsADirectoryError
  | None => Raise FileNotFoundError
  end.

(** [open(path, 'w', encoding='utf-8')] and the writes up to closing:
    the file is created or replaced; nothing changes when the open
    fails. *)
Definition write_text (w : world) (path text : string) : outcome world :=
  let wrote (readable : bool) :=
    Ret {| files := <[path := File text readable true]> (files w);
           journal := journal w ++ [Wrote path text] |} in
  match files w !! path with
  | None => wrote true
  | Some (File _ readable true) => wrote readable
  | Some (File _ _ false) => Raise PermissionError
  | Some Dir => Raise IsADirectoryError
  end.

(** A call that may write: its result and the world it leaves, also
    when it raises. *)
Definition io (A : Type) : Type := world → outcome A * world.

#[export] Instance io_ret : MRet io := λ A a w, (Ret a, w).
#[export] Instance io_bind : MBind io := λ A B k m w,
  match m w with
  | (Ret a, w1) => k a w1
  | (Raise e, w1) => (Raise e, w1)
  end.

(** [try ... except Exception as e] around a call that may write. *)
Definition io_try {A} (m : io A) (handler : exn → io A) : io A := λ w,
  match m w with
  | (Ret a, w1) => (Ret a, w1)
  | (Raise e, w1) => handler e w1
  end.

Definition reading {A} (f : world → outcome A) : io A := λ w, (f w, w).

Definition writing (f : world → outcome world) : io unit := λ w,
  match f w with
  | Ret w1 => (Ret (), w1)
  | Raise e => (Raise e, w)
  end.

(** [with open(src, 'r') as s: with open(dst, 'w') as d: d.write(s.read())]:
    [src] is opened first, then [dst]. *)
Definition copy_text (src dst : string) : io unit :=
  text ← reading (λ w, read_text w src);
  writing (λ w, write_text w dst text).

(** [PurePath.name]: the last component. *)
Definition name (path : string) : string := Str.after_last "/" path.

(** [PurePath.suffix]: from the last dot of the name, unless that dot
    is the first or the last character of the name. *)
Definition suffix (path : string) : string :=
  let n := name path in
  let ext := Str.after_last "." n in
  if Str.contains "." n
     && bool_decide (ext ≠ "")
     && bool_decide (String.length ext + 1 < String.length n)%nat
  then String "." ext else "".

(** [PurePath.stem]: the name without its suffix. *)
Definition stem (path : string) : string :=
  let n := name path in Str.drop_end (String.length (suffix path)) n.

(** [PurePath.with_suffix(new)], for a path whose name is not empty. *)
Definition with_suffix (path new : string) : string :=
  Str.drop_end (String.length (suffix path)) path +:+ new.

(** [PurePath.with_name(new)]: [ValueError] when [new] is not a single
    path component. *)
Definition with_name (path new : string) : outcome string :=
  if bool_decide (new = "") || Str.contains "/" new || bool_decide (new = ".")
  then Raise ValueError
  else Ret (Str.drop_end (String.length (name path)) path +:+ new).

(** [prompts_dir.glob(pattern)] for the pattern of a star and [ext]: the
    entries of [prompts_dir] itself whose name ends with [ext],
    dot files and directories included, in the order the system lists
    them. *)
Definition glob_ext (w : world) (ext : string) : list string :=
  filter (λ path, Str.contains "/" path = false ∧ Str.endswith path ext = true)
         (map_to_list (files w)).*1.

End Fs.

(** ** [models.py] *)

(** [class PromptTemplate(BaseModel)] *)
Module PromptTemplate.
Record t : Type := Make {
  content : string;
  description : option string;
  variables : list string;
  model : option string;
  max_tokens : option Z
}.
End PromptTemplate.

(** [class PromptCategory(BaseModel)] *)
Module PromptCategory.
Record t : Type := Make {
  version : string;
  category : string;
  description : string;
  templates : list (string * PromptTemplate.t)
}.
End PromptCategory.

(** Validation of the fields, by annotation.  A value of the annotated
    type is taken as it is and a value of another type is refused
    (pydantic's conversions between types are not modelled).  [None]
    stands for a field the input does not give. *)
Module Validate.
Import Json.

(** [str] *)
Definition str (v : value) : outcome string :=
  match v with
  | Str s => Ret s
  | _ => Raise ValidationError
  end.

(** [Optional[str]] with a default. *)
Definition optional_str (default : option string) (v : option value)
    : outcome (option string) :=
  match v with
  | None => Ret default
  | Some Null => Ret None
  | Some (Str s) => Ret (Some s)
  | Some _ => Raise ValidationError
  end.

(** [Optional[int]] with a default. *)
Definition optional_int (default : option Z) (v : option value)
    : outcome (option Z) :=
  match v with
  | None => Ret default
  | Some Null => Ret None
  | Some (Int n) => Ret (Some n)
  | Some _ => Raise ValidationError
  end.

(** [List[str]] with [default_factory=list]. *)
Definition list_str (v : option value) : outcome (list string) :=
  match v with
  | None => Ret []
  | Some (Arr items) =>
      from_option Ret (Raise ValidationError)
        (mapM (λ x, match x with Str s => Some s | _ => None end) items)
  | Some _ => Raise ValidationError
  end.

End Validate.

(** ** [storage.py]: [class PromptStorage]

    [self] is the directory [prompts_dir]; its state is an [Fs.world]. *)

Module PromptStorage.
Import Fs.

(** [self.prompts_dir / f"{category}.json"] *)
Definition get_category_file_path (category : string) : string :=
  category +:+ ".json".

(** [sorted]: strings in lexicographic order of their characters. *)
Definition sorted (l : list string) : list string := merge_sort String.le l.

(** [list_categories] *)
Definition list_categories (w : world) : list string :=
  let categories := foldl (λ categories json_file, categories ++ [stem json_file])
                          [] (glob_ext w ".json") in
  sorted categories.

(** [PromptTemplate] called with the items of [template_data] as
    keywords: [template_data] must be a mapping; items under other keys
    are ignored. *)
Definition make_template (template_data : Json.value) : outcome PromptTemplate.t :=
  match template_data with
  | Json.Obj fields =>
      match Dict.get fields "content" with
      | None => Raise ValidationError
      | Some v =>
          content ← Validate.str v;
          description ← Validate.optional_str (Some "") (Dict.get fields "description");
          variables ← Validate.list_str (Dict.get fields "variables");
          model ← Validate.optional_str (Some "claude-3-5-sonnet-20241022")
                                        (Dict.get fields "model");
          max_tokens ← Validate.optional_int (Some 1000) (Dict.get fields "max_tokens");
          Ret (PromptTemplate.Make content description variables model max_tokens)
      end
  | _ => Raise TypeError
  end.

(** [data.get(key, default)] on the decoded document: [AttributeError]
    when the document is not an object. *)
Definition data_get (data : Json.value) (key : string) (fallback : Json.value)
    : outcome Json.value :=
  match data with
  | Json.Obj fields => Ret (default fallback (Dict.get fields key))
  | _ => Raise AttributeError
  end.

(** [value.items()]: [AttributeError] when the value is not an object. *)
Definition items (v : Json.value) : outcome (list (string * Json.value)) :=
  match v with
  | Json.Obj fields => Ret fields
  | _ => Raise AttributeError
  end.

(** The loop of [get_category] that fills [templates]. *)
Fixpoint convert_templates (entries : list (string * Json.value))
    (templates : list (string * PromptTemplate.t))
    : outcome (list (string * PromptTemplate.t)) :=
  match entries with
  | [] => Ret templates
  | (name, template_data) :: entries =>
      template ← make_template template_data;
      convert_templates entries (Dict.set templates name template)
  end.

(** The [try] block of [get_category] from [json.load] on: [text] is
    what was read from the file. *)
Definition decode_category (category text : string) : outcome PromptCategory.t :=
  data ← from_option Ret (Raise JSONDecodeError) (Json.loads text);
  entries ← data_get data "templates" (Json.Obj []) ≫= items;
  templates ← convert_templates entries [];
  version ← data_get data "version" (Json.Str "1.0.0") ≫= Validate.str;
  declared ← data_get data "category" (Json.Str category) ≫= Validate.str;
  description ← data_get data "description" (Json.Str "") ≫= Validate.str;
  Ret (PromptCategory.Make version declared description templates).

(** The [try] block of [get_category]. *)
Definition load_category (w : world) (category : string) : outcome PromptCategory.t :=
  let file_path := get_category_file_path category in
  text ← read_text w file_path;
  decode_category category text.

(** [get_category]: [None] is returned as [Ret None]. *)
Definition get_category (w : world) (category : string)
    : outcome (option PromptCategory.t) :=
  let file_path := get_category_file_path category in
  if negb (exists_ w file_path) then Ret None
  else try_except (Some <$> load_category w category) (λ e, Ret None).

(** The dictionary [save_category] builds for one template. *)
Definition template_data (template : PromptTemplate.t) : Json.value :=
  let optional {A} (f : A → Json.value) (o : option A) := from_option f Json.Null o in
  Json.Obj [
    ("content", Json.Str (PromptTemplate.content template));
    ("description", optional Json.Str (PromptTemplate.description template));
    ("variables", Json.Arr (Json.Str <$> PromptTemplate.variables template));
    ("model", optional Json.Str (PromptTemplate.model template));
    ("max_tokens", optional Json.Int (PromptTemplate.max_tokens template))
  ].

(** The dictionary [data] of [save_category]. *)
Definition category_data (prompt_category : PromptCategory.t) : Json.value :=
  Json.Obj [
    ("version", Json.Str (PromptCategory.version prompt_category));
    ("category", Json.Str (PromptCategory.category prompt_category));
    ("description", Json.Str (PromptCategory.description prompt_category));
    ("templates",
     Json.Obj (foldl (λ d '(name, template), Dict.set d name (template_data template))
                     [] (PromptCategory.templates prompt_category)))
  ].

(** The path of the backup [save_category] makes. *)
Definition backup_path (category : string) : string :=
  with_suffix (get_category_file_path category) ".json.backup".


(** [save_category]: the success status, and the world after the call. *)
Definition save_category (category : string) (prompt_category : PromptCategory.t)
    : io bool :=
  let file_path := get_category_file_path category in
  io_try
    (present ← reading (λ w, Ret (exists_ w file_path));
     (if present : bool then copy_text file_path (backup_path category)
      else mret ());;
     let data := category_data prompt_category in
     writing (λ w, write_text w file_path (Json.dumps data));;
     mret true)
    (λ e, mret false).

(** One entry of [all_prompts]. *)
Record category_summary : Type := CategorySummary {
  summary_version : string;
  summary_description : string;
  template_count : nat;
  template_names : list string
}.

(** The dictionary [get_all_prompts] returns. *)
Record prompts_summary : Type := PromptsSummary {
  categories : list (string * category_summary);
  total_categories : nat;
  total_templates : nat
}.

(** The loop of [get_all_prompts], on the names still to visit. *)
Fixpoint summarize_loop (w : world) (names : list string)
    (all_prompts : list (string * category_summary)) (total_templates : nat)
    : outcome (list (string * category_summary) * nat) :=
  match names with
  | [] => Ret (all_prompts, total_templates)
  | category_name :: names =>
      category ← get_category w category_name;
      match category with
      | Some category =>
          let template_count := length (PromptCategory.templates category) in
          let total_templates := (total_templates + template_count)%nat in
          let all_prompts :=
            Dict.set all_prompts category_name
              {| summary_version := PromptCategory.version category;
                 summary_description := PromptCategory.description category;
                 template_count := template_count;
                 template_names := Dict.keys (PromptCategory.templates category) |} in
          summarize_loop w names all_prompts total_templates
      | None => summarize_loop w names all_prompts total_templates
      end
  end.

(** [get_all_prompts] *)
Definition get_all_prompts (w : world) : outcome prompts_summary :=
  '(all_prompts, total_templates) ← summarize_loop w (list_categories w) [] 0%nat;
  Ret {| categories := all_prompts;
         total_categories := length all_prompts;
         total_templates := total_templates |}.

(** The dictionary [test_prompt_rendering] returns: with
    ["success": True] the four results, with ["success": False] the
    error text. *)
Inductive test_result : Type :=
  | Success (rendered_prompt : string)
            (missing_variables template_variables provided_variables : list string)
  | Failure (error : string).

(** [result.get("missing_variables", [])] *)
Definition missing_variables (result : test_result) : list string :=
  match result with
  | Success _ missing _ _ => missing
  | Failure _ => []
  end.

Section rendering.
Context (L : set_layout) {V : Type} `{PyStr V}.

(** The statements of [test_prompt_rendering] from
    [template = Template(template_content)] to the [return] after
    them. *)
Definition render (template_content : string) (variables : gmap string V)
    : test_result :=
  let template_vars := PySet.of_list L (Template.get_identifiers template_content) in
  let provided_vars := PySet.of_list L (map_to_list variables).*1 in
  let missing_vars := PySet.to_list (PySet.difference L template_vars provided_vars) in
  let rendered_prompt := Template.safe_substitute variables template_content in
  Success rendered_prompt missing_vars
          (PySet.to_list template_vars) (PySet.to_list provided_vars).

(** [test_prompt_rendering] *)
Definition test_prompt_rendering (w : world) (category template_name : string)
    (variables : gmap string V) : outcome test_result :=
  try_except
    (prompt_category ← get_category w category;
     match prompt_category with
     | None => Ret (Failure ("Category '" +:+ category +:+ "' not found"))
     | Some prompt_category =>
         match Dict.get (PromptCategory.templates prompt_category) template_name with
         | None =>
             Ret (Failure ("Template '" +:+ template_name +:+
                           "' not found in category '" +:+ category +:+ "'"))
         | Some template_obj =>
             Ret (render (PromptTemplate.content template_obj) variables)
         end
     end)
    (λ e, Ret (Failure ("Rendering failed: " +:+ str_exn e))).

End rendering.

(** [datetime.now()], to the second. *)
Record datetime : Type := DateTime {
  year : N; month : N; day : N; hour : N; minute : N; second : N
}.

Definition two_digits (n : N) : string :=
  String (Str.digit (n / 10 mod 10)%N) (String (Str.digit (n mod 10)%N) "").

(** [now.strftime("%Y%m%d_%H%M%S")], for a year of four digits. *)
Definition strftime (now : datetime) : string :=
  two_digits (year now / 100)%N +:+ two_digits (year now)%N +:+
  two_digits (month now) +:+ two_digits (day now) +:+ "_" +:+
  two_digits (hour now) +:+ two_digits (minute now) +:+ two_digits (second now).

(** [backup_category]; [now] is what [datetime.now()] returns in the
    call.  The backup path is computed outside the [try] block. *)
Definition backup_category (now : datetime) (category : string) : io bool :=
  let file_path := get_category_file_path category in
  present ← reading (λ w, Ret (exists_ w file_path));
  if negb present then mret false
  else
    let timestamp := strftime now in
    backup_path ← reading (λ _, with_name file_path
                                  (category +:+ "_" +:+ timestamp +:+ ".backup.json"));
    io_try (copy_text file_path backup_path;; mret true)
           (λ e, mret false).

(** ** Words of the specification

    What the properties below say about documents, and the values the
    examples use. *)

(** The item [save_category] writes for a template. *)
Definition entry (item : string * PromptTemplate.t) : string * Json.value :=
  (item.1, template_data item.2).







(** The entry of [all_prompts] for a category. *)
Definition summary_of (C : PromptCategory.t) : category_summary :=
  {| summary_version := PromptCategory.version C;
     summary_description := PromptCategory.description C;
     template_count := length (PromptCategory.templates C);
     template_names := Dict.keys (PromptCategory.templates C) |}.

(** The entries for the names that load, in order. *)
Definition summaries (w : world) (names : list string) : list (string * category_summary) :=
  omap (λ name, match get_category w name with
                | Ret (Some C) => Some (name, summary_of C)
                | _ => None
                end) names.

End PromptStorage.


(** ** Sample values *)

Module Sample.
Import Fs PromptStorage.

Definition empty_world : world := World ∅ [].

Definition hello : PromptTemplate.t :=
  PromptTemplate.Make "Hello $name, you are ${age}" (Some "A greeting")
                      ["name"; "age"] None (Some 1000).

Definition price : PromptTemplate.t :=
  PromptTemplate.Make "Cost: $$5 for $item" None ["item"]
                      (Some "claude-3-5-sonnet-20241022") None.

(** A category whose declared name is not the key it is saved under. *)
Definition greetings : PromptCategory.t :=
  PromptCategory.Make "1.0.0" "greetings" "Ways to say hello"
                      [("hello", hello); ("price", price)].

Definition farewells : PromptCategory.t :=
  PromptCategory.Make "1.1.0" "greet" "Ways to say goodbye" [].

Definition now : datetime := DateTime 2024 1 2 3 4 5.

(** After [save_category("greet", greetings)] in an empty directory. *)
Definition saved : world := (save_category "greet" greetings empty_world).2.

(** Then after a second save under the same key. *)
Definition saved_twice : world := (save_category "greet" farewells saved).2.

(** After [save_category], then [backup_category], both for ["greet"]. *)
Definition backed_up : world := (backup_category now "greet" saved).2.

(** After a save under the empty key and one under the key [.json]:
    the directory holds the files [.json] and [.json.json]. *)
Definition dotted : world :=
  (save_category ".json" greetings (save_category "" greetings empty_world).2).2.



End Sample.

(** ** Vocabulary of the further properties *)

Module Words.
Import Template Fs PromptStorage.

(** An identifier of [Template.pattern]: a letter or an underscore, then
    letters, digits and underscores. *)
Fixpoint all_id_chars (s : string) : bool :=
  match s with
  | "" => true
  | String c r => is_id_char c && all_id_chars r
  end.

Definition is_identifier (id : string) : bool :=
  match id with
  | "" => false
  | String c r => is_id_start c && all_id_chars r
  end.

(** Text at which an identifier stops: it starts with no identifier
    character. *)
Definition id_stops (rest : string) : Prop :=
  match rest with
  | "" => True
  | String c _ => is_id_char c = false
  end.

(** What a placeholder for [id] becomes: the string form of the value
    given for [id], or the placeholder as written. *)
Definition value_or {V : Type} `{PyStr V} (mapping : gmap string V) (id as_written : string)
    : string :=
  match mapping !! id with
  | Some v => py_str v
  | None => as_written
  end.

(** The name of the file [backup_category] writes for a key. *)
Definition timestamped_name (category : string) (now : datetime) : string :=
  category +:+ "_" +:+ strftime now +:+ ".backup.json".

(** The key under which [list_categories] and [get_category] see that
    file. *)
Definition timestamped_key (category : string) (now : datetime) : string :=
  category +:+ "_" +:+ strftime now +:+ ".backup".

(** A place a file can be written to: nothing there, or a regular file
    this process may write. *)
Definition writable_at (w : world) (path : string) : Prop :=
  match files w !! path with
  | None => True
  | Some (File _ _ writable) => writable = true
  | Some Dir => False
  end.

(** A regular file this process may read. *)
Definition readable_at (w : world) (path : string) : Prop :=
  match files w !! path with
  | Some (File _ readable _) => readable = true
  | _ => False
  end.


(** An entry of [templates] that [PromptTemplate] cannot be made from:
    it is no object, or an object that gives no [content]. *)
Definition lacks_content (template_data : Json.value) : Prop :=
  match template_data with
  | Json.Obj fields => Dict.get fields "content" = None
  | _ => True
  end.


End Words.

(** ** [models.py]: the requests and responses of the endpoints *)

(** [class PromptTestRequest(BaseModel)] *)
Module PromptTestRequest.
Record t (V : Type) : Type := Make {
  category : string;
  template_name : string;
  variables : gmap string V
}.
Arguments Make {V} _ _ _.
Arguments category {V} _.
Arguments template_name {V} _.
Arguments variables {V} _.
End PromptTestRequest.

(** [class PromptTestResponse(BaseModel)] *)
Module PromptTestResponse.
Record t : Type := Make {
  success : bool;
  rendered_prompt : option string;
  error : option string;
  missing_variables : list string
}.
End PromptTestResponse.

(** [class PromptListResponse(BaseModel)] *)
Module PromptListResponse.
Record t : Type := Make {
  success : bool;
  categories : list (string * PromptStorage.category_summary);
  total_categories : nat;
  total_templates : nat
}.
End PromptListResponse.

(** [class PromptUpdateRequest(BaseModel)] *)
Module PromptUpdateRequest.
Record t : Type := Make {
  data : PromptCategory.t
}.
End PromptUpdateRequest.

(** ** [app.py]: the endpoints

    An endpoint is the function under the route decorator, called with
    the parameters the route has filled in; [storage] is the one
    [PromptStorage] of the application, and its state the world. *)

Module App.
Import Fs.

(** What an endpoint can raise. *)
Inductive raised : Type :=
  | HTTPException (status_code : Z) (detail : string)
  | Exception (e : exn).

(** The statements of a [try] block: they return, or raise, and leave a
    world. *)
Definition block (A : Type) : Type := world → (A + raised) * world.

#[export] Instance block_ret : MRet block := λ A a w, (inl a, w).
#[export] Instance block_bind : MBind block := λ A B k m w,
  match m w with
  | (inl a, w1) => k a w1
  | (inr r, w1) => (inr r, w1)
  end.

(** A call of a method of [storage]. *)
Definition call {A} (m : io A) : block A := λ w,
  match m w with
  | (Ret a, w1) => (inl a, w1)
  | (Raise e, w1) => (inr (Exception e), w1)
  end.

(** [raise HTTPException(status_code=..., detail=...)] *)
Definition raise {A} (status_code : Z) (detail : string) : block A :=
  λ w, (inr (HTTPException status_code detail), w).

(** What the client is answered: the value the endpoint returned, or
    the [HTTPException] it raised. *)
Inductive answer (A : Type) : Type :=
  | Respond (content : A)
  | Fail (status_code : Z) (detail : string).
Arguments Respond {A} content.
Arguments Fail {A} status_code detail.

Definition endpoint (A : Type) : Type := world → answer A * world.

(** [except HTTPException: raise], then
    [except Exception as e: raise HTTPException(status_code=500, detail=str(e))] *)
Definition guarded {A} (m : block A) : endpoint A := λ w,
  match m w with
  | (inl a, w1) => (Respond a, w1)
  | (inr (HTTPException status_code detail), w1) => (Fail status_code detail, w1)
  | (inr (Exception e), w1) => (Fail 500 (str_exn e), w1)
  end.

(** [template.dict()] *)
Definition template_dict (template : PromptTemplate.t) : Json.value :=
  Json.Obj [
    ("content", Json.Str (PromptTemplate.content template));
    ("description", from_option Json.Str Json.Null (PromptTemplate.description template));
    ("variables", Json.Arr (Json.Str <$> PromptTemplate.variables template));
    ("model", from_option Json.Str Json.Null (PromptTemplate.model template));
    ("max_tokens", from_option Json.Int Json.Null (PromptTemplate.max_tokens template))
  ].

(** [prompt_category.dict()] *)
Definition category_dict (prompt_category : PromptCategory.t) : Json.value :=
  Json.Obj [
    ("version", Json.Str (PromptCategory.version prompt_category));
    ("category", Json.Str (PromptCategory.category prompt_category));
    ("description", Json.Str (PromptCategory.description prompt_category));
    ("templates",
     Json.Obj ((λ item, (item.1, template_dict item.2))
               <$> PromptCategory.templates prompt_category))
  ].


(** [get_prompt_category] *)
Definition get_prompt_category (category : string) : endpoint Json.value :=
  guarded (
    prompt_category ← call (reading (λ w, PromptStorage.get_category w category));
    match prompt_category with
    | None => raise 404 ("Category '" +:+ category +:+ "' not found")
    | Some prompt_category =>
        mret (Json.Obj [("success", Json.Bool true);
                        ("category", category_dict prompt_category)])
    end).

(** [update_prompt_category]; [now] is what [datetime.now()] returns in
    [backup_category]. *)
Definition update_prompt_category (now : PromptStorage.datetime) (category : string)
    (request : PromptUpdateRequest.t) : endpoint Json.value :=
  guarded (
    call (PromptStorage.backup_category now category);;
    success ← call (PromptStorage.save_category category
                      (PromptUpdateRequest.data request));
    if negb success then raise 500 "Failed to save category"
    else
      mret (Json.Obj [("success", Json.Bool true);
                      ("message",
                       Json.Str ("Category '" +:+ category +:+ "' updated successfully"))])).

(** [result["success"]] *)
Definition result_success (result : PromptStorage.test_result) : bool :=
  match result with
  | PromptStorage.Success _ _ _ _ => true
  | PromptStorage.Failure _ => false
  end.

(** [result.get("rendered_prompt")] *)
Definition result_rendered_prompt (result : PromptStorage.test_result) : option string :=
  match result with
  | PromptStorage.Success rendered_prompt _ _ _ => Some rendered_prompt
  | PromptStorage.Failure _ => None
  end.

(** [result.get("error")] *)
Definition result_error (result : PromptStorage.test_result) : option string :=
  match result with
  | PromptStorage.Success _ _ _ _ => None
  | PromptStorage.Failure error => Some error
  end.

(** [test_prompt_rendering]: what it catches it answers as a response. *)
Definition test_prompt_rendering (L : set_layout) {V : Type} `{PyStr V}
    (request : PromptTestRequest.t V) : endpoint PromptTestResponse.t := λ w,
  match PromptStorage.test_prompt_rendering L w
          (PromptTestRequest.category request)
          (PromptTestRequest.template_name request)
          (PromptTestRequest.variables request) with
  | Ret result =>
      (Respond (PromptTestResponse.Make (result_success result)
                  (result_rendered_prompt result)
                  (result_error result)
                  (PromptStorage.missing_variables result)), w)
  | Raise e =>
      (Respond (PromptTestResponse.Make false None (Some (str_exn e)) []), w)
  end.



End App.

(** ** More sample values *)

Module Example.
Import Fs PromptStorage.

(** A directory whose file [greet.json] this process may read and not
    write. *)
Definition read_only_world : world :=
  World {[ "greet.json" := File (Json.dumps (category_data Sample.farewells)) true false ]} [].

(** A directory whose file [greet.json] this process may not read. *)
Definition unreadable_world : world :=
  World {[ "greet.json" := File (Json.dumps (category_data Sample.farewells)) false true ]} [].


(** A document with a template that has no content. *)
Definition broken_document : Json.value :=
  Json.Obj [("templates",
             Json.Obj [("good", Json.Obj [("content", Json.Str "hi")]);
                       ("bad", Json.Obj [("description", Json.Str "no content")])])].

Definition broken_world : world :=
  World {[ "broken.json" := File (Json.dumps broken_document) true true ]} [].

Definition ada : gmap string string := {[ "name" := "Ada" ]}.

Definition update_request : PromptUpdateRequest.t :=
  PromptUpdateRequest.Make Sample.farewells.

End Example.

(** * Properties *)

(** ** Strings *)

Module StrFacts.

Lemma app_nil_r (s : string) : s +:+ "" = s.
Proof.
  unfold String.app. induction s as [|c s IH]; simpl; [done|]. by rewrite IH.
Qed.

Lemma app_assoc (a b c : string) : (a +:+ b) +:+ c = a +:+ (b +:+ c).
Proof.
  unfold String.app. induction a as [|x a IH]; simpl; [done|]. by rewrite IH.
Qed.

Lemma app_cons (c : ascii) (a b : string) : String c a +:+ b = String c (a +:+ b).
Proof. done. Qed.

Lemma length_app (a b : string) :
  String.length (a +:+ b) = (String.length a + String.length b)%nat.
Proof.
  unfold String.app. induction a as [|x a IH]; simpl; [done|]. by rewrite IH.
Qed.

(** Induction on a string by its length. *)
Lemma length_ind (P : string → Prop) :
  (∀ s, (∀ r, (String.length r < String.length s)%nat → P r) → P s) → ∀ s, P s.
Proof.
  intros step s. remember (String.length s) as n eqn:Hn.
  revert s Hn. induction n as [n IH] using lt_wf_ind.
  intros s ->. apply step. intros r Hr. by apply (IH (String.length r)).
Qed.

End StrFacts.

(** ** The template engine *)

Module TemplateFacts.
Import Template.

Lemma span_id_app (s : string) :
  ∀ id rest, span_id s = (id, rest) → s = id +:+ rest.
Proof.
  induction s as [|c s IH]; simpl; intros id rest Hs.
  - by inversion Hs.
  - destruct (is_id_char c).
    + destruct (span_id s) as [id' rest'] eqn:E. inversion Hs; subst.
      rewrite StrFacts.app_cons. f_equal. by apply IH.
    + by inversion Hs.
Qed.

(** A match covers the dollar sign and a prefix of what follows it. *)
Lemma match_at_covers (r : string) (mo : match_object) (n : nat) :
  match_at r = (mo, n) →
  ∃ pre post, r = pre +:+ post ∧ String.length pre = n ∧ group mo = String "$" pre.
Proof.
  unfold match_at. intros Hm.
  assert (Hinv : (mo, n) = (Invalid, 0%nat) →
    ∃ pre post, r = pre +:+ post ∧ String.length pre = n ∧ group mo = String "$" pre).
  { intros [= -> ->]. by exists "", r. }
  destruct r as [|c r]; [by apply Hinv|].
  destruct (decide (c = "$"%char)) as [->|Hc1].
  { inversion Hm; subst. by exists "$", r. }
  destruct (decide (c = "{"%char)) as [->|Hc2].
  { destruct r as [|d r]; [by apply Hinv|].
    destruct (is_id_start d); [|by apply Hinv].
    destruct (span_id (String d r)) as [id after] eqn:E.
    apply span_id_app in E.
    destruct after as [|e after]; [by apply Hinv|].
    destruct (decide (e = "}"%char)) as [->|He].
    - inversion Hm; subst. exists (String "{" (id +:+ "}")), after. split_and!.
      + rewrite E, !StrFacts.app_cons. f_equal.
        by rewrite StrFacts.app_assoc.
      + simpl. rewrite StrFacts.length_app. simpl. lia.
      + done.
    - apply Hinv. rewrite <- Hm. clear -He.
      destruct e as [[] [] [] [] [] [] [] []]; try done. }
  assert (Hm' : (if is_id_start c
                 then let '(id, _) := span_id (String c r) in (Named id, String.length id)
                 else (Invalid, 0%nat)) = (mo, n)).
  { rewrite <- Hm. clear -Hc1 Hc2.
    destruct c as [[] [] [] [] [] [] [] []]; try done. }
  clear Hm. destruct (is_id_start c); [|by apply Hinv].
  destruct (span_id (String c r)) as [id after] eqn:E.
  apply span_id_app in E. inversion Hm'; subst.
  by exists id, after.
Qed.

(** Scanning with [skip] characters still covered starts after them. *)
Lemma scan_skip (pre post : string) :
  scan (String.length pre) (pre +:+ post) = scan 0 post.
Proof.
  induction pre as [|c pre IH]; [done|].
  rewrite StrFacts.app_cons. simpl. apply IH.
Qed.

Lemma scan_dollar (r : string) :
  scan 0 (String "$" r) = Match (match_at r).1 :: scan (match_at r).2 r.
Proof. simpl. by destruct (match_at r). Qed.

Lemma scan_lit (c : ascii) (r : string) :
  c ≠ "$"%char → scan 0 (String c r) = Lit c :: scan 0 r.
Proof. intros Hc. simpl. by rewrite bool_decide_eq_false_2. Qed.

(** The segments of a template, as written, make up the template. *)
Lemma scan_written (s : string) : Str.join (written <$> scan 0 s) = s.
Proof.
  induction s as [s IH] using StrFacts.length_ind.
  destruct s as [|c r]; [done|].
  destruct (decide (c = "$"%char)) as [->|Hc].
  - rewrite scan_dollar. destruct (match_at r) as [mo n] eqn:E.
    destruct (match_at_covers _ _ _ E) as (pre & post & -> & <- & Hg).
    simpl. rewrite scan_skip, Hg, IH.
    + by rewrite StrFacts.app_cons.
    + simpl. rewrite StrFacts.length_app. lia.
  - rewrite scan_lit by done. simpl. rewrite IH by (simpl; lia). done.
Qed.

Section substitution.
Context {V : Type} `{PyStr V}.
Implicit Types (mapping : gmap string V).

Lemma sub_join (f : match_object → string) (s : string) :
  sub f s = Str.join ((λ seg, match seg with Lit c => String c "" | Match mo => f mo end)
                        <$> scan 0 s).
Proof.
  unfold sub. induction (scan 0 s) as [|seg segs IH]; [done|].
  simpl. rewrite IH. by destruct seg.
Qed.

(** The output is the template with each segment replaced. *)
Lemma safe_substitute_join mapping (s : string) :
  safe_substitute mapping s = Str.join (replacement mapping <$> scan 0 s).
Proof. apply sub_join. Qed.

Lemma safe_substitute_dollar mapping (r : string) :
  safe_substitute mapping (String "$" r)
  = convert mapping (match_at r).1 +:+ Str.join (replacement mapping <$> scan (match_at r).2 r).
Proof. by rewrite safe_substitute_join, scan_dollar. Qed.

(** A placeholder the mapping has no value for stays as written. *)
Lemma replacement_missing mapping (seg : segment) (id : string) :
  placeholder seg = Some id → mapping !! id = None →
  replacement mapping seg = written seg.
Proof.
  destruct seg as [c|mo]; [done|]. simpl. unfold convert.
  intros -> ->. done.
Qed.

Lemma safe_substitute_lit mapping (c : ascii) (r : string) :
  c ≠ "$"%char → safe_substitute mapping (String c r) = String c (safe_substitute mapping r).
Proof. intros Hc. by rewrite !safe_substitute_join, scan_lit. Qed.

(** Text without a dollar sign is copied. *)
Lemma safe_substitute_plain mapping (p s : string) :
  Str.contains "$" p = false →
  safe_substitute mapping (p +:+ s) = p +:+ safe_substitute mapping s.
Proof.
  induction p as [|c p IH]; [done|]. simpl. case_bool_decide as Hc; [done|].
  intros Hp. rewrite !StrFacts.app_cons, safe_substitute_lit by done.
  by rewrite IH.
Qed.

Lemma safe_substitute_escaped mapping (r : string) :
  safe_substitute mapping (String "$" (String "$" r)) = String "$" (safe_substitute mapping r).
Proof. by rewrite !safe_substitute_join. Qed.

End substitution.

Lemma get_identifiers_foldl (s : string) :
  get_identifiers s = foldl add_identifier [] (placeholders s).
Proof.
  unfold get_identifiers, placeholders.
  enough (∀ mos acc,
    foldl (λ ids mo, match named_or_braced mo with
                     | Some named => add_identifier ids named
                     | None => ids
                     end) acc mos
    = foldl add_identifier acc (omap named_or_braced mos)) as Hgen by apply Hgen.
  induction mos as [|mo mos IH]; intros acc; [done|].
  simpl. destruct (named_or_braced mo) as [named|]; simpl; apply IH.
Qed.

Lemma foldl_add_identifier (l acc : list string) :
  foldl add_identifier acc l = acc ++ filter (λ y, y ∉ acc) (distinct_in_order l).
Proof.
  revert acc. induction l as [|x l IH]; intros acc; simpl.
  { by rewrite app_nil_r. }
  rewrite IH. unfold add_identifier. case_bool_decide as Hx.
  - f_equal. rewrite filter_cons_False by (intros ?; done).
    rewrite list_filter_filter. apply list_filter_iff. intros y. split; [|tauto].
    intros Hy. split; [done|]. by intros ->.
  - rewrite filter_cons_True by done. rewrite <- app_assoc. simpl. do 2 f_equal.
    rewrite list_filter_filter. apply list_filter_iff. intros y.
    rewrite not_elem_of_app, list_elem_of_singleton. tauto.
Qed.

Lemma filter_all {A} (P : A → Prop) `{∀ x, Decision (P x)} (l : list A) :
  (∀ x, P x) → filter P l = l.
Proof.
  intros HP. induction l as [|x l IH]; [done|].
  rewrite filter_cons_True by done. by rewrite IH.
Qed.

(** [get_identifiers] lists the identifiers of the template in the
    order of their first appearance. *)
Lemma get_identifiers_first_appearance (s : string) :
  get_identifiers s = distinct_in_order (placeholders s).
Proof.
  rewrite get_identifiers_foldl, foldl_add_identifier. simpl.
  apply filter_all. intros x. apply not_elem_of_nil.
Qed.

Lemma elem_of_distinct_in_order (l : list string) (x : string) :
  x ∈ distinct_in_order l ↔ x ∈ l.
Proof.
  induction l as [|y l IH]; simpl; [done|].
  rewrite !elem_of_cons, list_elem_of_filter, IH.
  destruct (decide (x = y)); intuition congruence.
Qed.

Lemma NoDup_distinct_in_order (l : list string) : NoDup (distinct_in_order l).
Proof.
  induction l as [|y l IH]; simpl; [constructor|].
  constructor.
  - rewrite list_elem_of_filter. by intros [? _].
  - by apply NoDup_filter.
Qed.

Lemma NoDup_get_identifiers (s : string) : NoDup (get_identifiers s).
Proof. rewrite get_identifiers_first_appearance. apply NoDup_distinct_in_order. Qed.

(** An identifier is reported only for a named or braced match. *)
Lemma elem_of_get_identifiers (s id : string) :
  id ∈ get_identifiers s ↔ ∃ mo, mo ∈ finditer s ∧ named_or_braced mo = Some id.
Proof.
  rewrite get_identifiers_first_appearance, elem_of_distinct_in_order.
  unfold placeholders. apply list_elem_of_omap.
Qed.

Lemma finditer_lit (c : ascii) (r : string) :
  c ≠ "$"%char → finditer (String c r) = finditer r.
Proof. intros Hc. unfold finditer. by rewrite scan_lit. Qed.

Lemma get_identifiers_placeholders (s s' : string) :
  placeholders s = placeholders s' → get_identifiers s = get_identifiers s'.
Proof. intros Hp. by rewrite !get_identifiers_first_appearance, Hp. Qed.

Lemma match_at_escaped (r : string) : match_at (String "$" r) = (Escaped, 1%nat).
Proof. done. Qed.

Lemma match_at_invalid (r : string) : plain_after r → match_at r = (Invalid, 0%nat).
Proof.
  destruct r as [|c r]; [done|]. intros (H1 & H2 & H3).
  unfold match_at. rewrite H2.
  destruct c as [[] [] [] [] [] [] [] []]; done.
Qed.

Lemma finditer_dollar (r : string) :
  finditer (String "$" r)
  = (match_at r).1 :: omap (λ seg, match seg with Match mo => Some mo | Lit _ => None end)
                           (scan (match_at r).2 r).
Proof. unfold finditer. by rewrite scan_dollar. Qed.

Lemma finditer_plain (p s : string) :
  Str.contains "$" p = false → finditer (p +:+ s) = finditer s.
Proof.
  induction p as [|c p IH]; [done|]. simpl. case_bool_decide as Hc; [done|].
  intros Hp. rewrite StrFacts.app_cons, finditer_lit by done. by apply IH.
Qed.

Lemma finditer_escaped (r : string) :
  finditer (String "$" (String "$" r)) = Escaped :: finditer r.
Proof. done. Qed.

Lemma finditer_invalid (r : string) :
  plain_after r → finditer (String "$" r) = Invalid :: finditer r.
Proof. intros Hr. by rewrite finditer_dollar, match_at_invalid. Qed.

End TemplateFacts.

(** ** Dictionaries *)

Module DictFacts.
Section facts.
Context {V : Type}.
Implicit Types (d : list (string * V)).

Lemma set_fresh d (k : string) (v : V) :
  k ∉ d.*1 → Dict.set d k v = d ++ [(k, v)].
Proof.
  induction d as [|[k' v'] d IH]; [done|]. simpl.
  rewrite not_elem_of_cons. intros [Hk Hd].
  rewrite bool_decide_eq_false_2 by done. by rewrite IH.
Qed.

Lemma foldl_set_fresh (l d : list (string * V)) :
  NoDup (d ++ l).*1 → foldl (λ d kv, Dict.set d kv.1 kv.2) d l = d ++ l.
Proof.
  revert d. induction l as [|[k v] l IH]; intros d Hnd; simpl.
  { by rewrite app_nil_r. }
  rewrite set_fresh.
  - rewrite IH; rewrite <- app_assoc; done.
  - rewrite fmap_app in Hnd. apply NoDup_app in Hnd as (_ & Hd & _).
    intros Hk. apply (Hd k Hk). simpl. apply elem_of_cons. by left.
Qed.

(** A list of pairs with distinct keys is the dictionary it builds. *)
Lemma of_pairs_wf (l : list (string * V)) : Dict.wf l → Dict.of_pairs l = l.
Proof. intros Hl. by apply (foldl_set_fresh l []). Qed.

End facts.
End DictFacts.

(** ** The [json] module: reading back what was written *)

Module JsonFacts.
Import Json.

Lemma scanstring_escape_char (c : ascii) (tail : string) :
  scanstring (escape_char c +:+ tail) = prepend (String c "") (scanstring tail).
Proof. destruct c as [[] [] [] [] [] [] [] []]; reflexivity. Qed.

(** Reading back an escaped string. *)
Lemma scanstring_escape (s rest : string) :
  scanstring (escape s +:+ String quote rest) = Some (s, rest).
Proof.
  induction s as [|c s IH]; [done|].
  simpl. rewrite StrFacts.app_assoc, scanstring_escape_char, IH. done.
Qed.

Lemma encode_basestring_app (s tail : string) :
  encode_basestring s +:+ tail = String quote (escape s +:+ String quote tail).
Proof.
  unfold encode_basestring. rewrite StrFacts.app_cons. f_equal.
  by rewrite StrFacts.app_assoc.
Qed.

(** *** Numbers *)

Lemma span_digits_digits (u : Decimal.uint) (rest : string) :
  no_digit_ahead rest → span_digits (digits u +:+ rest) = (digits u, rest).
Proof.
  intros Hrest. induction u; simpl; rewrite ?StrFacts.app_cons; simpl; rewrite ?IHu; try done.
  destruct rest as [|c rest]; [done|]. simpl in *. by rewrite Hrest.
Qed.

Lemma uint_of_digits_digits (u : Decimal.uint) : uint_of_digits (digits u) = u.
Proof. induction u; simpl; by rewrite ?IHu. Qed.

(** The decimal form of a positive number starts with a digit other
    than [0]. *)
Lemma to_uint_head (p : positive) :
  ∃ c ds, digits (Pos.to_uint p) = String c ds ∧ is_digit c = true ∧ c ≠ "0"%char.
Proof.
  pose proof (DecimalPos.Unsigned.to_uint_nonzero p) as Hz.
  assert (Hn : Decimal.unorm (Pos.to_uint p) = Pos.to_uint p).
  { by rewrite <- DecimalPos.Unsigned.to_of, DecimalPos.Unsigned.of_to. }
  destruct (Pos.to_uint p) as [|u|u|u|u|u|u|u|u|u|u] eqn:E; simpl; try by eauto.
  exfalso. rewrite DecimalFacts.unorm_D0 in Hn.
  assert (Hu : u ≠ Decimal.Nil) by (intros ->; done).
  pose proof (DecimalFacts.nb_digits_unorm u Hu) as Hlen.
  rewrite Hn in Hlen. simpl in Hlen. lia.
Qed.

Lemma ends_number_no_digit (rest : string) : ends_number rest → no_digit_ahead rest.
Proof. destruct rest as [|c rest]; [done|]. by intros [-> | ->]. Qed.

Lemma lex_frac_ends (rest : string) : ends_number rest → lex_frac rest = ("", rest).
Proof. destruct rest as [|c rest]; [done|]. by intros [-> | ->]. Qed.

Lemma lex_exp_ends (rest : string) : ends_number rest → lex_exp rest = ("", rest).
Proof. destruct rest as [|c rest]; [done|]. by intros [-> | ->]. Qed.

Lemma scan_number_digits (negative : bool) (u : Decimal.uint) (c : ascii) (ds rest : string) :
  digits u = String c ds → is_digit c = true → (c = "0"%char → ds = "") →
  ends_number rest →
  scan_number ((if negative then "-" else "") +:+ digits u +:+ rest)
  = Some (Int (Z.of_int (if negative then Decimal.Neg u else Decimal.Pos u)), rest).
Proof.
  intros Hu Hc H0 Hrest.
  assert (Hs : scan_number ((if negative then "-" else "") +:+ digits u +:+ rest)
    = let '(int_text, s2) :=
        if bool_decide (c = "0"%char) then ("0", ds +:+ rest)
        else span_digits (digits u +:+ rest) in
      let '(frac, s3) := lex_frac s2 in
      let '(exp, s4) := lex_exp s3 in
      if bool_decide (frac = "") && bool_decide (exp = "") then
        let u := uint_of_digits int_text in
        Some (Int (Z.of_int (if negative then Decimal.Neg u else Decimal.Pos u)), s4)
      else
        Some (Float ((if negative then "-" else "") +:+ int_text +:+ frac +:+ exp), s4)).
  { unfold scan_number. destruct negative.
    - change ("-" +:+ digits u +:+ rest) with (String "-" (digits u +:+ rest)).
      cbv beta iota. rewrite Hu, StrFacts.app_cons, Hc. done.
    - change ("" +:+ digits u +:+ rest) with (digits u +:+ rest).
      rewrite Hu, StrFacts.app_cons.
      assert (c ≠ "-"%char) as Hm by (intros ->; done).
      destruct c as [[] [] [] [] [] [] [] []]; try done. }
  rewrite Hs. clear Hs. case_bool_decide as Hz.
  - rewrite (H0 Hz). change ("" +:+ rest) with rest.
    rewrite lex_frac_ends, lex_exp_ends by done. simpl.
    assert (u = Decimal.D0 Decimal.Nil) as ->; [|done].
    rewrite <- (uint_of_digits_digits u), Hu, (H0 Hz), Hz. done.
  - rewrite span_digits_digits by by apply ends_number_no_digit.
    rewrite lex_frac_ends, lex_exp_ends by done. simpl.
    by rewrite uint_of_digits_digits.
Qed.

Lemma repr_int_shape (n : Z) :
  ∃ (negative : bool) u c ds,
    repr_int n = (if negative then "-" else "") +:+ digits u
    ∧ Z.to_int n = (if negative then Decimal.Neg u else Decimal.Pos u)
    ∧ digits u = String c ds ∧ is_digit c = true ∧ (c = "0"%char → ds = "").
Proof.
  unfold repr_int. destruct n as [|p|p]; simpl.
  - exists false, (Decimal.D0 Decimal.Nil), "0"%char, "". done.
  - destruct (to_uint_head p) as (c & ds & Hd & Hc & H0).
    exists false, (Pos.to_uint p), c, ds. done.
  - destruct (to_uint_head p) as (c & ds & Hd & Hc & H0).
    exists true, (Pos.to_uint p), c, ds. done.
Qed.

(** Reading back a printed integer. *)
Lemma scan_number_repr_int (n : Z) (rest : string) :
  ends_number rest → scan_number (repr_int n +:+ rest) = Some (Int n, rest).
Proof.
  intros Hrest. destruct (repr_int_shape n) as (negative & u & c & ds & -> & Hn & Hu & Hc & H0).
  rewrite StrFacts.app_assoc, (scan_number_digits negative u c ds) by done.
  by rewrite <- Hn, DecimalZ.of_to.
Qed.

(** *** Values *)

Lemma encode_arr_cons (level : nat) (x : value) (xs : list value) (rest : string) :
  encode level (Arr (x :: xs)) +:+ rest
  = String "[" (newline_indent (S level) +:+ encode (S level) x +:+
                encode_items level xs +:+ newline_indent level +:+ String "]" rest).
Proof.
  change (encode level (Arr (x :: xs)))
    with ("[" +:+ newline_indent (S level) +:+ encode (S level) x +:+
          encode_items level xs +:+ newline_indent level +:+ "]").
  by rewrite !StrFacts.app_assoc.
Qed.

Lemma encode_obj_cons (level : nat) (k : string) (x : value)
    (xs : list (string * value)) (rest : string) :
  encode level (Obj ((k, x) :: xs)) +:+ rest
  = String "{" (newline_indent (S level) +:+
                String quote (escape k +:+ String quote
                  (String ":" (String " " (encode (S level) x +:+
                   encode_members level xs +:+ newline_indent level +:+ String "}" rest))))).
Proof.
  change (encode level (Obj ((k, x) :: xs)))
    with ("{" +:+ newline_indent (S level) +:+ encode_basestring k +:+ ": " +:+
          encode (S level) x +:+ encode_members level xs +:+ newline_indent level +:+ "}").
  rewrite !StrFacts.app_assoc, encode_basestring_app. done.
Qed.

Lemma encode_items_cons (level : nat) (y : value) (ys : list value) (rest : string) :
  encode_items level (y :: ys) +:+ rest
  = String "," (newline_indent (S level) +:+ encode (S level) y +:+
                encode_items level ys +:+ rest).
Proof.
  change (encode_items level (y :: ys))
    with ("," +:+ newline_indent (S level) +:+ encode (S level) y +:+ encode_items level ys).
  by rewrite !StrFacts.app_assoc.
Qed.

Lemma encode_members_cons (level : nat) (k : string) (y : value)
    (ys : list (string * value)) (rest : string) :
  encode_members level ((k, y) :: ys) +:+ rest
  = String "," (newline_indent (S level) +:+
                String quote (escape k +:+ String quote
                  (String ":" (String " " (encode (S level) y +:+
                   encode_members level ys +:+ rest))))).
Proof.
  change (encode_members level ((k, y) :: ys))
    with ("," +:+ newline_indent (S level) +:+ encode_basestring k +:+ ": " +:+
          encode (S level) y +:+ encode_members level ys).
  rewrite !StrFacts.app_assoc, encode_basestring_app. done.
Qed.

(** *** White space *)

Lemma skip_ws_starts (s : string) : starts_value s → skip_ws s = s.
Proof. destruct s as [|c s]; [done|]. simpl. by intros [-> _]. Qed.

Lemma skip_ws_newline_indent (level : nat) (r : string) :
  skip_ws (newline_indent level +:+ r) = skip_ws r.
Proof.
  unfold newline_indent. rewrite StrFacts.app_cons.
  change (skip_ws (spaces (2 * level) +:+ r) = skip_ws r).
  induction (2 * level)%nat as [|n IH]; [done|]. exact IH.
Qed.

Lemma repr_int_starts (n : Z) (rest : string) :
  ∃ c r, repr_int n +:+ rest = String c r ∧ (is_digit c = true ∨ c = "-"%char).
Proof.
  destruct (repr_int_shape n) as (negative & u & c & ds & -> & _ & Hu & Hc & _).
  destruct negative.
  - exists "-"%char, (digits u +:+ rest). split; [|by right].
    by rewrite StrFacts.app_assoc.
  - exists c, (ds +:+ rest). split; [|by left].
    by rewrite StrFacts.app_assoc, Hu.
Qed.

Lemma encode_starts (level : nat) (v : value) (rest : string) :
  plain v → starts_value (encode level v +:+ rest).
Proof.
  destruct v as [|[]|n|?|s|[|x xs]|[|[k x] xs]]; try done.
  intros _. destruct (repr_int_starts n rest) as (c & r & Hs & Hc). simpl.
  rewrite Hs. simpl. destruct Hc as [Hc | ->]; [|done].
  destruct c as [[] [] [] [] [] [] [] []]; done.
Qed.

Lemma scan_once_number (f : nat) (s : string) (c : ascii) (r : string) (x : value * string) :
  s = String c r → is_digit c = true ∨ c = "-"%char →
  scan_number s = Some x → scan_once (S f) s = Some x.
Proof.
  intros -> Hc Hx.
  assert (Hs : scan_once (S f) (String c r)
               = match scan_number (String c r) with
                 | Some y => Some y
                 | None => match strip_prefix "-Infinity" (String c r) with
                           | Some r => Some (Float "-Infinity", r)
                           | None => None
                           end
                 end).
  { destruct Hc as [Hc | ->]; [|done].
    destruct c as [[] [] [] [] [] [] [] []]; try done. }
  by rewrite Hs, Hx.
Qed.

Lemma scan_once_int (f : nat) (n : Z) (rest : string) :
  ends_number rest → scan_once (S f) (repr_int n +:+ rest) = Some (Int n, rest).
Proof.
  intros Hrest. destruct (repr_int_starts n rest) as (c & r & Hs & Hc).
  eapply scan_once_number; [done..|]. by apply scan_number_repr_int.
Qed.

Lemma ends_number_items (level : nat) (xs : list value) (rest : string) :
  ends_number (encode_items level xs +:+ newline_indent level +:+ rest).
Proof.
  destruct xs as [|y ys].
  - by right.
  - rewrite encode_items_cons. by left.
Qed.

Lemma ends_number_members (level : nat) (xs : list (string * value)) (rest : string) :
  ends_number (encode_members level xs +:+ newline_indent level +:+ rest).
Proof.
  destruct xs as [|[k y] ys].
  - by right.
  - rewrite encode_members_cons. by left.
Qed.

Lemma skip_ws_comma (r : string) : skip_ws (String "," r) = String "," r.
Proof. done. Qed.

Lemma skip_ws_quote (r : string) : skip_ws (String quote r) = String quote r.
Proof. done. Qed.

Lemma skip_ws_close_array (level : nat) (r : string) :
  skip_ws (newline_indent level +:+ String "]" r) = String "]" r.
Proof. by rewrite skip_ws_newline_indent. Qed.

Lemma skip_ws_close_object (level : nat) (r : string) :
  skip_ws (newline_indent level +:+ String "}" r) = String "}" r.
Proof. by rewrite skip_ws_newline_indent. Qed.

Lemma scan_once_array (f : nat) (level : nat) (tail : string) :
  starts_value tail →
  scan_once (S f) (String "[" (newline_indent level +:+ tail)) = elements f tail [].
Proof.
  intros Hst.
  change (scan_once (S f) (String "[" (newline_indent level +:+ tail)))
    with (match skip_ws (newline_indent level +:+ tail) with
          | String "]" r1 => Some (Arr [], r1)
          | r1 => elements f r1 []
          end).
  rewrite skip_ws_newline_indent, skip_ws_starts by done.
  destruct tail as [|c tail]; [done|]. destruct Hst as [_ Hc].
  destruct c as [[] [] [] [] [] [] [] []]; done.
Qed.

Lemma scan_once_object (f : nat) (level : nat) (tail : string) :
  scan_once (S f) (String "{" (newline_indent level +:+ String quote tail))
  = members f tail [].
Proof.
  change (scan_once (S f) (String "{" (newline_indent level +:+ String quote tail)))
    with (match skip_ws (newline_indent level +:+ String quote tail) with
          | String q r1 =>
              if bool_decide (q = "}"%char) then Some (Obj [], r1)
              else if bool_decide (q = quote) then members f r1 []
              else None
          | "" => None
          end).
  by rewrite skip_ws_newline_indent, skip_ws_quote.
Qed.

Lemma elements_last (f : nat) (s : string) (items : list value)
    (v : value) (level : nat) (rest : string) :
  scan_once f s = Some (v, newline_indent level +:+ String "]" rest) →
  elements (S f) s items = Some (Arr (items ++ [v]), rest).
Proof.
  intros Hs.
  change (elements (S f) s items)
    with ('(v, r) ← scan_once f s;
          match skip_ws r with
          | String "]" r => Some (Arr (items ++ [v]), r)
          | String "," r => elements f (skip_ws r) (items ++ [v])
          | _ => None
          end).
  rewrite Hs. cbn [mbind option_bind]. by rewrite skip_ws_close_array.
Qed.

Lemma elements_more (f : nat) (s : string) (items : list value)
    (v : value) (level : nat) (tail : string) :
  scan_once f s = Some (v, String "," (newline_indent level +:+ tail)) →
  starts_value tail →
  elements (S f) s items = elements f tail (items ++ [v]).
Proof.
  intros Hs Hst.
  change (elements (S f) s items)
    with ('(v, r) ← scan_once f s;
          match skip_ws r with
          | String "]" r => Some (Arr (items ++ [v]), r)
          | String "," r => elements f (skip_ws r) (items ++ [v])
          | _ => None
          end).
  rewrite Hs. cbn [mbind option_bind]. rewrite skip_ws_comma. cbv beta iota.
  by rewrite skip_ws_newline_indent, skip_ws_starts.
Qed.

Lemma members_value (f : nat) (key tail : string) (pairs : list (string * value))
    (v : value) (r : string) :
  starts_value tail →
  scan_once f tail = Some (v, r) →
  members (S f) (escape key +:+ String quote (String ":" (String " " tail))) pairs
  = members_next f (pairs ++ [(key, v)]) r.
Proof.
  intros Hst Hs.
  change (members (S f) ?s pairs)
    with ('(key, r) ← scanstring s;
          match skip_ws r with
          | String ":" r =>
              '(v, r) ← scan_once f (skip_ws r);
              members_next f (pairs ++ [(key, v)]) r
          | _ => None
          end).
  rewrite scanstring_escape. cbn [mbind option_bind].
  change (skip_ws (String ":" (String " " tail))) with (String ":" (String " " tail)).
  cbv beta iota.
  change (skip_ws (String " " tail)) with (skip_ws tail).
  rewrite skip_ws_starts by done. rewrite Hs. done.
Qed.

Lemma members_next_last (f : nat) (pairs : list (string * value)) (level : nat)
    (rest : string) :
  members_next f pairs (newline_indent level +:+ String "}" rest)
  = Some (Obj (Dict.of_pairs pairs), rest).
Proof. unfold members_next. by rewrite skip_ws_close_object. Qed.

Lemma members_next_more (f : nat) (pairs : list (string * value)) (level : nat)
    (tail : string) :
  members_next f pairs (String "," (newline_indent level +:+ String quote tail))
  = members f tail pairs.
Proof.
  unfold members_next. rewrite skip_ws_comma. cbv beta iota.
  by rewrite skip_ws_newline_indent, skip_ws_quote.
Qed.

(** Reading back what [encode] writes, with enough fuel. *)
Lemma scan_encode (f : nat) :
  (∀ v level rest,
     (weight v ≤ f)%nat → plain v → ends_number rest →
     scan_once f (encode level v +:+ rest) = Some (v, rest))
  ∧ (∀ x xs level rest items,
       (weight_items (x :: xs) ≤ f)%nat → plain_items (x :: xs) →
       elements f (encode (S level) x +:+ encode_items level xs +:+
                   newline_indent level +:+ String "]" rest) items
       = Some (Arr (items ++ x :: xs), rest))
  ∧ (∀ k x xs level rest pairs,
       (weight_members ((k, x) :: xs) ≤ f)%nat → plain_members ((k, x) :: xs) →
       members f (escape k +:+ String quote
                    (String ":" (String " " (encode (S level) x +:+
                     encode_members level xs +:+ newline_indent level +:+ String "}" rest))))
               pairs
       = Some (Obj (Dict.of_pairs (pairs ++ (k, x) :: xs)), rest)).
Proof.
  induction f as [|f (IHv & IHi & IHm)].
  { split_and!.
    - intros v ? ? Hw. destruct v; simpl in Hw; lia.
    - intros ? ? ? ? ? Hw. simpl in Hw. lia.
    - intros ? ? ? ? ? ? Hw. simpl in Hw. lia. }
  split_and!.
  - intros v level rest Hw Hp Hrest.
    destruct v as [|[]|n|?|s|[|x xs]|[|[k x] xs]]; try done.
    + by apply scan_once_int.
    + change (encode level (Str s)) with (encode_basestring s).
      rewrite encode_basestring_app.
      change (scan_once (S f) (String quote (escape s +:+ String quote rest)))
        with ('(str, rest) ← scanstring (escape s +:+ String quote rest);
              Some (Str str, rest)).
      by rewrite scanstring_escape.
    + rewrite encode_arr_cons, scan_once_array by (apply encode_starts; apply Hp).
      apply (IHi x xs level rest []); [|done].
      change (weight (Arr (x :: xs))) with (S (weight_items (x :: xs))) in Hw. lia.
    + rewrite encode_obj_cons, scan_once_object. destruct Hp as [Hnd Hp].
      rewrite (IHm k x xs level rest []); [|
        change (weight (Obj ((k, x) :: xs))) with (S (weight_members ((k, x) :: xs))) in Hw; lia
        | done].
      simpl. by rewrite DictFacts.of_pairs_wf.
  - intros x xs level rest items Hw [Hpx Hpxs].
    assert (Hx : scan_once f (encode (S level) x +:+ encode_items level xs +:+
                              newline_indent level +:+ String "]" rest)
                 = Some (x, encode_items level xs +:+ newline_indent level +:+ String "]" rest)).
    { apply IHv; [|done|apply ends_number_items].
      change (weight_items (x :: xs)) with (S (weight x + weight_items xs)) in Hw. lia. }
    destruct xs as [|y ys].
    + exact (elements_last f _ items x level rest Hx).
    + rewrite encode_items_cons in Hx at 2.
      rewrite (elements_more _ _ _ _ _ _ Hx) by (apply encode_starts; apply Hpxs).
      rewrite IHi; [| change (weight_items (x :: y :: ys))
                        with (S (weight x + weight_items (y :: ys))) in Hw; lia | done].
      by rewrite <- app_assoc.
  - intros k x xs level rest pairs Hw [Hpx Hpxs].
    rewrite (members_value f k _ pairs x
               (encode_members level xs +:+ newline_indent level +:+ String "}" rest));
      [|by apply encode_starts|].
    2:{ apply IHv; [|done|apply ends_number_members].
        change (weight_members ((k, x) :: xs))
          with (S (weight x + weight_members xs)) in Hw. lia. }
    destruct xs as [|[k' y] ys].
    + apply members_next_last.
    + rewrite encode_members_cons, members_next_more.
      rewrite IHm; [| change (weight_members ((k, x) :: (k', y) :: ys))
                        with (S (weight x + weight_members ((k', y) :: ys))) in Hw; lia | done].
      by rewrite <- app_assoc.
Qed.

(** The decoder's fuel, the length of the text, covers the weight of
    the value the text encodes. *)
Lemma weight_length (n : nat) (v : value) (level : nat) :
  (weight v ≤ n)%nat → plain v → (weight v ≤ String.length (encode level v))%nat.
Proof.
  revert v level. induction n as [|n IH]; intros v level Hw Hp.
  { destruct v; simpl in Hw; lia. }
  assert (Hitems : ∀ xs, (weight_items xs ≤ n)%nat → plain_items xs →
            (weight_items xs ≤ String.length (encode_items level xs))%nat).
  { induction xs as [|y ys IHys]; [done|]. intros Hys [Hpy Hpys].
    change (weight_items (y :: ys)) with (S (weight y + weight_items ys)) in *.
    change (encode_items level (y :: ys))
      with ("," +:+ newline_indent (S level) +:+ encode (S level) y +:+ encode_items level ys).
    rewrite !StrFacts.length_app.
    pose proof (IH y (S level) ltac:(lia) Hpy).
    pose proof (IHys ltac:(lia) Hpys). simpl. lia. }
  assert (Hmembers : ∀ xs, (weight_members xs ≤ n)%nat → plain_members xs →
            (weight_members xs ≤ String.length (encode_members level xs))%nat).
  { induction xs as [|[k y] ys IHys]; [done|]. intros Hys [Hpy Hpys].
    change (weight_members ((k, y) :: ys)) with (S (weight y + weight_members ys)) in *.
    change (encode_members level ((k, y) :: ys))
      with ("," +:+ newline_indent (S level) +:+ encode_basestring k +:+ ": " +:+
            encode (S level) y +:+ encode_members level ys).
    rewrite !StrFacts.length_app.
    pose proof (IH y (S level) ltac:(lia) Hpy).
    pose proof (IHys ltac:(lia) Hpys). simpl. lia. }
  destruct v as [|[]|z|?|s|[|x xs]|[|[k x] xs]]; try done; try (simpl; lia).
  - destruct (repr_int_shape z) as (negative & u & c & ds & Hr & _ & Hu & _).
    change (encode level (Int z)) with (repr_int z).
    rewrite Hr, StrFacts.length_app, Hu. simpl. lia.
  - change (weight (Arr (x :: xs))) with (S (S (weight x + weight_items xs))) in *.
    change (encode level (Arr (x :: xs)))
      with ("[" +:+ newline_indent (S level) +:+ encode (S level) x +:+
            encode_items level xs +:+ newline_indent level +:+ "]").
    rewrite !StrFacts.length_app. destruct Hp as [Hpx Hpxs].
    pose proof (IH x (S level) ltac:(lia) Hpx).
    pose proof (Hitems xs ltac:(lia) Hpxs). simpl. lia.
  - change (weight (Obj ((k, x) :: xs))) with (S (S (weight x + weight_members xs))) in *.
    change (encode level (Obj ((k, x) :: xs)))
      with ("{" +:+ newline_indent (S level) +:+ encode_basestring k +:+ ": " +:+
            encode (S level) x +:+ encode_members level xs +:+ newline_indent level +:+ "}").
    rewrite !StrFacts.length_app. destruct Hp as [_ [Hpx Hpxs]].
    pose proof (IH x (S level) ltac:(lia) Hpx).
    pose proof (Hmembers xs ltac:(lia) Hpxs). simpl. lia.
Qed.

(** Round trip: decoding the text [dumps] writes for a plain value
    gives the value back. *)
Theorem loads_dumps (v : value) : plain v → loads (dumps v) = Some v.
Proof.
  intros Hp. unfold loads, dumps.
  rewrite skip_ws_starts.
  2:{ rewrite <- (StrFacts.app_nil_r (encode 0 v)). by apply encode_starts. }
  pose proof (weight_length (weight v) v 0 ltac:(lia) Hp) as Hlen.
  destruct (scan_encode (S (String.length (encode 0 v)))) as [Hscan _].
  specialize (Hscan v 0%nat "" ltac:(lia) Hp I).
  rewrite StrFacts.app_nil_r in Hscan. by rewrite Hscan.
Qed.

End JsonFacts.

(** ** Python sets *)

Module PySetFacts.
Section facts.
Context (L : set_layout).

Lemma elem_of_set_iter (l : list string) (x : string) : x ∈ set_iter L l ↔ x ∈ l.
Proof. by rewrite (set_iter_perm L l), elem_of_remove_dups. Qed.

Lemma NoDup_set_iter (l : list string) : NoDup (set_iter L l).
Proof. rewrite (set_iter_perm L l). apply NoDup_remove_dups. Qed.

(** On a list without repeats a layout only changes the order. *)
Lemma set_iter_NoDup (l : list string) : NoDup l → set_iter L l ≡ₚ l.
Proof.
  intros Hl. apply NoDup_Permutation; [apply NoDup_set_iter|done|].
  apply elem_of_set_iter.
Qed.

Lemma set_iter_nil : set_iter L [] = [].
Proof. apply Permutation_nil_r. by rewrite (set_iter_perm L []). Qed.

Lemma set_iter_singleton (x : string) : set_iter L [x] = [x].
Proof. apply Permutation_singleton_r. by rewrite (set_iter_perm L [x]). Qed.

End facts.
End PySetFacts.

(** ** Rendering *)

Module RenderFacts.
Import Template PromptStorage.

Section render.
Context (L : set_layout) {V : Type} `{PyStr V}.
Implicit Types (variables : gmap string V).

Lemma elem_of_keys variables (x : string) :
  x ∈ (map_to_list variables).*1 ↔ is_Some (variables !! x).
Proof.
  rewrite list_elem_of_fmap. split.
  - intros [[k v] [-> Hkv]]. apply elem_of_map_to_list in Hkv. by exists v.
  - intros [v Hv]. exists (x, v). split; [done|]. by apply elem_of_map_to_list.
Qed.

Lemma render_success (content : string) variables :
  render L content variables
  = Success (safe_substitute variables content)
            (set_iter L (filter (λ x, x ∉ set_iter L (map_to_list variables).*1)
                                (set_iter L (get_identifiers content))))
            (set_iter L (get_identifiers content))
            (set_iter L (map_to_list variables).*1).
Proof. done. Qed.

(** The missing list holds, once each, the identifiers of the template
    that are not keys of the mapping. *)
Lemma missing_elem_of (content : string) variables (x : string) :
  x ∈ missing_variables (render L content variables)
  ↔ x ∈ get_identifiers content ∧ variables !! x = None.
Proof.
  rewrite render_success. simpl.
  rewrite PySetFacts.elem_of_set_iter, list_elem_of_filter,
    !PySetFacts.elem_of_set_iter, elem_of_keys, <- eq_None_not_Some.
  tauto.
Qed.

Lemma missing_permutation (content : string) variables :
  missing_variables (render L content variables)
  ≡ₚ filter (λ id, variables !! id = None) (get_identifiers content).
Proof.
  apply NoDup_Permutation.
  - rewrite render_success. apply PySetFacts.NoDup_set_iter.
  - apply NoDup_filter, TemplateFacts.NoDup_get_identifiers.
  - intros x. rewrite missing_elem_of, list_elem_of_filter. tauto.
Qed.

(** [test_prompt_rendering] returns: what its [try] block raises is
    turned into a failure record. *)
Lemma test_prompt_rendering_returns (w : Fs.world) (category template_name : string)
    variables :
  ∃ result, test_prompt_rendering L w category template_name variables = Ret result.
Proof.
  unfold test_prompt_rendering, try_except.
  destruct (_ ≫= _) as [result|e]; eauto.
Qed.

(** For a template that is found, the result is that of [render]. *)
Lemma test_prompt_rendering_found (w : Fs.world) (category template_name : string)
    variables (prompt_category : PromptCategory.t) (template_obj : PromptTemplate.t) :
  get_category w category = Ret (Some prompt_category) →
  Dict.get (PromptCategory.templates prompt_category) template_name = Some template_obj →
  test_prompt_rendering L w category template_name variables
  = Ret (render L (PromptTemplate.content template_obj) variables).
Proof.
  intros Hc Ht. unfold test_prompt_rendering. rewrite Hc. simpl. by rewrite Ht.
Qed.

End render.

(** C3. Missing-variable policy.  With any set layout, rendering
    ["Hello $name, you are ${age}"] with ["name"] bound to ["Ada"]
    succeeds with the text ["Hello Ada, you are ${age}"] and the missing
    list [["age"]], also through [test_prompt_rendering] on a store that
    holds the template.  In general: the template is the concatenation of
    its segments as written and the rendered text is the concatenation
    of their replacements; a placeholder whose identifier is not a key of
    the mapping is replaced by its own text; a template that is found
    always renders to a success record; and [test_prompt_rendering]
    returns, it never raises. *)
Theorem render_missing_variable_policy (L : set_layout) :
  (∃ template_vars,
     render L "Hello $name, you are ${age}" ({[ "name" := "Ada" ]} : gmap string string)
     = Success "Hello Ada, you are ${age}" ["age"] template_vars ["name"]
     ∧ test_prompt_rendering L Sample.saved "greet" "hello"
         ({[ "name" := "Ada" ]} : gmap string string)
       = Ret (Success "Hello Ada, you are ${age}" ["age"] template_vars ["name"]))
  ∧ (∀ (V : Type) (S : PyStr V) (variables : gmap string V) (content : string),
       content = Str.join (written <$> scan 0 content)
       ∧ (∃ missing template_vars provided_vars,
            render L content variables
            = Success (Str.join (replacement variables <$> scan 0 content))
                      missing template_vars provided_vars)
       ∧ (∀ seg id, seg ∈ scan 0 content → placeholder seg = Some id →
            variables !! id = None → replacement variables seg = written seg)
       ∧ (∀ w category template_name,
            ∃ result, test_prompt_rendering L w category template_name variables
                      = Ret result)).
Proof.
  split.
  - assert (Hrender : ∃ template_vars,
      render L "Hello $name, you are ${age}" ({[ "name" := "Ada" ]} : gmap string string)
      = Success "Hello Ada, you are ${age}" ["age"] template_vars ["name"]).
    { eexists. rewrite render_success.
      assert (Hids : get_identifiers "Hello $name, you are ${age}" = ["name"; "age"])
        by by vm_compute.
      assert (Hkeys : (map_to_list ({[ "name" := "Ada" ]} : gmap string string)).*1
                      = ["name"]) by by rewrite map_to_list_singleton.
      rewrite Hids, Hkeys, PySetFacts.set_iter_singleton.
      assert (Hmissing :
        set_iter L (filter (λ x, x ∉ ["name"]) (set_iter L ["name"; "age"])) = ["age"]).
      { apply Permutation_singleton_r.
        rewrite PySetFacts.set_iter_NoDup
          by apply NoDup_filter, PySetFacts.NoDup_set_iter.
        rewrite (PySetFacts.set_iter_NoDup L ["name"; "age"])
          by (apply (bool_decide_unpack _); by vm_compute).
        by vm_compute. }
      rewrite Hmissing. reflexivity. }
    destruct Hrender as [template_vars Hrender]. exists template_vars.
    split; [done|].
    rewrite (test_prompt_rendering_found L Sample.saved "greet" "hello" _
               Sample.greetings Sample.hello) by by vm_compute.
    by rewrite <- Hrender.
  - intros V S variables content. split_and!.
    + by rewrite TemplateFacts.scan_written.
    + rewrite render_success, TemplateFacts.safe_substitute_join. eauto.
    + intros seg id _. apply TemplateFacts.replacement_missing.
    + intros. apply test_prompt_rendering_returns.
Qed.

(** C7. Escaping.  With any set layout, rendering
    ["Cost: $$5 for $item"] with ["item"] bound to ["widget"] succeeds
    with the text ["Cost: $5 for widget"] and nothing missing, also
    through [test_prompt_rendering] on a store that holds the template.
    In general: a dollar sign followed by a dollar sign is an escaped
    match, written [$$], replaced by one dollar sign and never a
    placeholder; after text without dollar signs, [$$] renders as [$] and
    adds no identifier; a dollar sign followed by no dollar sign, no
    start of an identifier and no brace is an invalid match, replaced by
    itself, and adds no identifier; and every reported identifier is
    that of a named or braced match. *)
Theorem render_escaping (L : set_layout) :
  render L "Cost: $$5 for $item" ({[ "item" := "widget" ]} : gmap string string)
  = Success "Cost: $5 for widget" [] ["item"] ["item"]
  ∧ test_prompt_rendering L Sample.saved "greet" "price"
      ({[ "item" := "widget" ]} : gmap string string)
    = Ret (Success "Cost: $5 for widget" [] ["item"] ["item"])
  ∧ (∀ (V : Type) (S : PyStr V) (variables : gmap string V),
       (∀ r, match_at (String "$" r) = (Escaped, 1%nat))
       ∧ written (Match Escaped) = "$$"
       ∧ replacement variables (Match Escaped) = "$"
       ∧ placeholder (Match Escaped) = None
       ∧ (∀ p r, Str.contains "$" p = false →
            safe_substitute variables (p +:+ "$$" +:+ r)
            = p +:+ "$" +:+ safe_substitute variables r
            ∧ get_identifiers (p +:+ "$$" +:+ r) = get_identifiers r)
       ∧ (∀ r, plain_after r → match_at r = (Invalid, 0%nat))
       ∧ replacement variables (Match Invalid) = written (Match Invalid)
       ∧ placeholder (Match Invalid) = None
       ∧ (∀ p r, Str.contains "$" p = false → plain_after r →
            safe_substitute variables (p +:+ "$" +:+ r)
            = p +:+ "$" +:+ safe_substitute variables r
            ∧ get_identifiers (p +:+ "$" +:+ r) = get_identifiers r)
       ∧ (∀ content id, id ∈ get_identifiers content →
            ∃ seg, seg ∈ scan 0 content ∧ placeholder seg = Some id)).
Proof.
  assert (Hrender :
    render L "Cost: $$5 for $item" ({[ "item" := "widget" ]} : gmap string string)
    = Success "Cost: $5 for widget" [] ["item"] ["item"]).
  { rewrite render_success.
    assert (Hids : get_identifiers "Cost: $$5 for $item" = ["item"]) by by vm_compute.
    assert (Hkeys : (map_to_list ({[ "item" := "widget" ]} : gmap string string)).*1
                    = ["item"]) by by rewrite map_to_list_singleton.
    rewrite Hids, Hkeys, !PySetFacts.set_iter_singleton.
    assert (Hmissing : filter (λ x, x ∉ ["item"]) ["item"] = []) by by vm_compute.
    rewrite Hmissing, PySetFacts.set_iter_nil. reflexivity. }
  split_and!.
  - exact Hrender.
  - rewrite (test_prompt_rendering_found L Sample.saved "greet" "price" _
               Sample.greetings Sample.price) by by vm_compute.
    by rewrite <- Hrender.
  - intros V S variables. split_and!; try done.
    + intros p r Hp. split.
      * rewrite TemplateFacts.safe_substitute_plain by done.
        change ("$$" +:+ r) with (String "$" (String "$" r)).
        by rewrite TemplateFacts.safe_substitute_escaped.
      * apply TemplateFacts.get_identifiers_placeholders. unfold placeholders.
        rewrite TemplateFacts.finditer_plain by done.
        change ("$$" +:+ r) with (String "$" (String "$" r)).
        by rewrite TemplateFacts.finditer_escaped.
    + apply TemplateFacts.match_at_invalid.
    + intros p r Hp Hr. split.
      * rewrite TemplateFacts.safe_substitute_plain by done.
        change ("$" +:+ r) with (String "$" r).
        rewrite TemplateFacts.safe_substitute_dollar, TemplateFacts.match_at_invalid by done.
        simpl. by rewrite TemplateFacts.safe_substitute_join.
      * apply TemplateFacts.get_identifiers_placeholders. unfold placeholders.
        rewrite TemplateFacts.finditer_plain by done.
        change ("$" +:+ r) with (String "$" r).
        by rewrite TemplateFacts.finditer_invalid.
    + intros content id [mo [Hmo Hid]]%TemplateFacts.elem_of_get_identifiers.
      exists (Match mo). split; [|done].
      unfold finditer in Hmo. apply list_elem_of_omap in Hmo as [seg [Hseg Hs]].
      destruct seg; by simplify_eq.
Qed.

(** C4, as the spec states it, fails: with the layout that iterates
    in lexicographic order, the template ["$b $a"] rendered with no
    variables reports [["a"; "b"]], while the order of first appearance
    is [["b"; "a"]]. *)
Lemma missing_order_counterexample :
  missing_variables (render sorted_layout "$b $a" (∅ : gmap string string))
  ≠ filter (λ id, (∅ : gmap string string) !! id = None)
           (distinct_in_order (placeholders "$b $a")).
Proof. by vm_compute. Qed.

(** C4, amended.  The missing list holds exactly the distinct placeholder
    identifiers of the content that are not keys of the mapping, each
    once: it is a rearrangement of the list of those identifiers in
    order of first appearance.  Its order is that of a set and is not
    determined by the content. *)
Theorem missing_variables_rearranged (L : set_layout) (V : Type) (S : PyStr V)
    (content : string) (variables : gmap string V) :
  missing_variables (render L content variables)
  ≡ₚ filter (λ id, variables !! id = None) (distinct_in_order (placeholders content))
  ∧ NoDup (missing_variables (render L content variables)).
Proof.
  split.
  - rewrite <- TemplateFacts.get_identifiers_first_appearance.
    apply missing_permutation.
  - rewrite render_success. apply PySetFacts.NoDup_set_iter.
Qed.

End RenderFacts.

(** ** Files *)

Module FsFacts.
Import Fs.

Lemma no_cr_cons (c : ascii) (s : string) :
  no_cr (String c s) ↔ c ≠ "013"%char ∧ no_cr s.
Proof.
  unfold no_cr. simpl. case_bool_decide; split; try done; tauto.
Qed.

Lemma no_cr_app (a b : string) : no_cr (a +:+ b) ↔ no_cr a ∧ no_cr b.
Proof.
  induction a as [|c a IH]; [by intuition|].
  rewrite StrFacts.app_cons, !no_cr_cons, IH. tauto.
Qed.

(** Text without carriage returns reads as it is. *)
Lemma universal_newlines_no_cr (s : string) : no_cr s → universal_newlines s = s.
Proof.
  induction s as [|c s IH]; [done|]. rewrite no_cr_cons. intros [Hc Hs].
  simpl. rewrite bool_decide_eq_false_2 by done. by rewrite IH.
Qed.

Lemma no_cr_escape_char (c : ascii) : no_cr (Json.escape_char c).
Proof. destruct c as [[] [] [] [] [] [] [] []]; done. Qed.

Lemma no_cr_escape (s : string) : no_cr (Json.escape s).
Proof.
  induction s as [|c s IH]; [done|]. simpl. apply no_cr_app. split; [|done].
  apply no_cr_escape_char.
Qed.

Lemma no_cr_encode_basestring (s : string) : no_cr (Json.encode_basestring s).
Proof.
  unfold Json.encode_basestring. apply no_cr_cons. split; [done|].
  apply no_cr_app. split; [apply no_cr_escape|done].
Qed.

Lemma no_cr_digits (u : Decimal.uint) : no_cr (Json.digits u).
Proof. induction u; simpl; try done; by apply no_cr_cons. Qed.

Lemma no_cr_repr_int (n : Z) : no_cr (Json.repr_int n).
Proof.
  unfold Json.repr_int. destruct (Z.to_int n).
  - apply no_cr_digits.
  - apply no_cr_cons. split; [done|apply no_cr_digits].
Qed.

Lemma no_cr_newline_indent (level : nat) : no_cr (Json.newline_indent level).
Proof.
  unfold Json.newline_indent. apply no_cr_cons. split; [done|].
  induction (2 * level)%nat as [|n IH]; [done|]. simpl. by apply no_cr_cons.
Qed.

Lemma no_cr_encode (n : nat) (v : Json.value) (level : nat) :
  (Json.weight v ≤ n)%nat → Json.plain v → no_cr (Json.encode level v).
Proof.
  revert v level. induction n as [|n IH]; intros v level Hw Hp.
  { destruct v; simpl in Hw; lia. }
  assert (Hitems : ∀ xs, (Json.weight_items xs ≤ n)%nat → Json.plain_items xs →
            no_cr (Json.encode_items level xs)).
  { induction xs as [|y ys IHys]; [done|]. intros Hys [Hpy Hpys].
    change (Json.weight_items (y :: ys))
      with (S (Json.weight y + Json.weight_items ys)) in *.
    change (Json.encode_items level (y :: ys))
      with ("," +:+ Json.newline_indent (S level) +:+ Json.encode (S level) y +:+
            Json.encode_items level ys).
    rewrite !no_cr_app. split_and!; [done|apply no_cr_newline_indent| |].
    - apply IH; [lia|done].
    - apply IHys; [lia|done]. }
  assert (Hmembers : ∀ xs, (Json.weight_members xs ≤ n)%nat → Json.plain_members xs →
            no_cr (Json.encode_members level xs)).
  { induction xs as [|[k y] ys IHys]; [done|]. intros Hys [Hpy Hpys].
    change (Json.weight_members ((k, y) :: ys))
      with (S (Json.weight y + Json.weight_members ys)) in *.
    change (Json.encode_members level ((k, y) :: ys))
      with ("," +:+ Json.newline_indent (S level) +:+ Json.encode_basestring k +:+ ": " +:+
            Json.encode (S level) y +:+ Json.encode_members level ys).
    rewrite !no_cr_app.
    split_and!; [done|apply no_cr_newline_indent|apply no_cr_encode_basestring|done| |].
    - apply IH; [lia|done].
    - apply IHys; [lia|done]. }
  destruct v as [|[]|z|?|s|[|x xs]|[|[k x] xs]]; try done.
  - apply no_cr_repr_int.
  - apply no_cr_encode_basestring.
  - change (Json.weight (Json.Arr (x :: xs)))
      with (S (S (Json.weight x + Json.weight_items xs))) in *.
    change (Json.encode level (Json.Arr (x :: xs)))
      with ("[" +:+ Json.newline_indent (S level) +:+ Json.encode (S level) x +:+
            Json.encode_items level xs +:+ Json.newline_indent level +:+ "]").
    destruct Hp as [Hpx Hpxs]. rewrite !no_cr_app.
    split_and!; [done|apply no_cr_newline_indent| | |apply no_cr_newline_indent|done].
    + apply IH; [lia|done].
    + apply Hitems; [lia|done].
  - change (Json.weight (Json.Obj ((k, x) :: xs)))
      with (S (S (Json.weight x + Json.weight_members xs))) in *.
    change (Json.encode level (Json.Obj ((k, x) :: xs)))
      with ("{" +:+ Json.newline_indent (S level) +:+ Json.encode_basestring k +:+ ": " +:+
            Json.encode (S level) x +:+ Json.encode_members level xs +:+
            Json.newline_indent level +:+ "}").
    destruct Hp as [_ [Hpx Hpxs]]. rewrite !no_cr_app.
    split_and!; [done|apply no_cr_newline_indent|apply no_cr_encode_basestring|done
                | | |apply no_cr_newline_indent|done].
    + apply IH; [lia|done].
    + apply Hmembers; [lia|done].
Qed.

(** What [dumps] writes reads back as written. *)
Lemma universal_newlines_dumps (v : Json.value) :
  Json.plain v → universal_newlines (Json.dumps v) = Json.dumps v.
Proof.
  intros Hp. apply universal_newlines_no_cr. by apply (no_cr_encode (Json.weight v)).
Qed.

End FsFacts.

Module StorageFacts.
Import Fs PromptStorage.

Lemma last_char_app (a : string) (c : ascii) (b : string) :
  Str.last_char (a +:+ String c b) = Str.last_char (String c b).
Proof.
  induction a as [|x a IH]; [done|]. rewrite StrFacts.app_cons.
  change (Str.last_char (String x (a +:+ String c b)))
    with (match a +:+ String c b with
          | "" => Some x
          | _ => Str.last_char (a +:+ String c b)
          end).
  rewrite <- IH. by destruct a.
Qed.

(** The backup of a save is not the category file. *)
Lemma backup_path_ne (category : string) :
  backup_path category ≠ get_category_file_path category.
Proof.
  intros Heq. apply (f_equal Str.last_char) in Heq.
  unfold backup_path, with_suffix, get_category_file_path in Heq.
  change ".json.backup" with (String "." "json.backup") in Heq.
  change ".json" with (String "." "json") in Heq at 3.
  by rewrite !last_char_app in Heq.
Qed.

(** *** Writing and reading files *)

Lemma write_text_inv (w w' : world) (path text : string) :
  write_text w path text = Ret w' →
  ∃ readable,
    (files w !! path = None ∧ readable = true
     ∨ ∃ old, files w !! path = Some (File old readable true))
    ∧ files w' = <[path := File text readable true]> (files w)
    ∧ journal w' = journal w ++ [Wrote path text].
Proof.
  unfold write_text. destruct (files w !! path) as [[old r [|]|]|] eqn:E; try done.
  - intros [= <-]. exists r. eauto.
  - intros [= <-]. exists true. eauto.
Qed.


Lemma read_text_file (w : world) (path text : string) (writable : bool) :
  files w !! path = Some (File text true writable) →
  read_text w path = Ret (universal_newlines text).
Proof. unfold read_text. by intros ->. Qed.

Lemma read_text_inv (w : world) (path text : string) :
  read_text w path = Ret text →
  ∃ old writable, files w !! path = Some (File old true writable)
                  ∧ text = universal_newlines old.
Proof.
  unfold read_text. destruct (files w !! path) as [[old [|] wr|]|]; try done.
  intros [= <-]. eauto.
Qed.

(** *** What a successful save did *)

Lemma save_category_inv (w w' : world) (category : string) (C : PromptCategory.t) :
  save_category category C w = (Ret true, w') →
  let file_path := get_category_file_path category in
  let text := Json.dumps (category_data C) in
  (files w !! file_path = None ∧ write_text w file_path text = Ret w')
  ∨ (∃ old writable w1,
       files w !! file_path = Some (File old true writable)
       ∧ write_text w (backup_path category) (universal_newlines old) = Ret w1
       ∧ write_text w1 file_path text = Ret w').
Proof.
  unfold save_category, copy_text, io_try.
  unfold mbind, io_bind, reading, writing, mret, io_ret, exists_.
  intros Hs. cbv zeta. case_bool_decide as Hex.
  - right. destruct Hex as [nd Hnd].
    destruct (read_text w (get_category_file_path category)) as [text|e] eqn:Hr;
      [|done].
    apply read_text_inv in Hr as (old & wr & Hf & ->).
    destruct (write_text w (backup_path category) (universal_newlines old)) as [w1|e] eqn:Hw1;
      [|done].
    destruct (write_text w1 _ _) as [w2|e] eqn:Hw2; [|done].
    inversion Hs; subst. eauto 10.
  - left. apply eq_None_not_Some in Hex.
    destruct (write_text w _ _) as [w2|e] eqn:Hw2; [|done].
    inversion Hs; subst. eauto.
Qed.

(** The file a successful save leaves. *)
Lemma save_category_file (w w' : world) (category : string) (C : PromptCategory.t) :
  save_category category C w = (Ret true, w') →
  files w' !! get_category_file_path category
  = Some (File (Json.dumps (category_data C)) true true).
Proof.
  intros [[Hnone Hw] | (old & wr & w1 & Hold & Hb & Hw)]%save_category_inv.
  - apply write_text_inv in Hw as (r & [[_ ->] | [old Hold]] & -> & _).
    + apply lookup_insert_eq.
    + by rewrite Hold in Hnone.
  - apply write_text_inv in Hb as (rb & _ & Hf1 & _).
    apply write_text_inv in Hw as (r & Hcase & -> & _).
    rewrite Hf1, lookup_insert_ne, Hold in Hcase by apply backup_path_ne.
    destruct Hcase as [[? _] | [old' [= <- <-]]]; [done|].
    apply lookup_insert_eq.
Qed.

(** *** Decoding what a save wrote *)

Lemma mapM_Str (l : list string) :
  mapM (λ x, match x with Json.Str s => Some s | _ => None end) (Json.Str <$> l) = Some l.
Proof. apply mapM_Some. induction l as [|x l IH]; by constructor. Qed.

Lemma make_template_data (t : PromptTemplate.t) : make_template (template_data t) = Ret t.
Proof.
  destruct t as [content description variables model max_tokens].
  unfold make_template, template_data. simpl.
  unfold Validate.list_str. rewrite mapM_Str. simpl.
  by destruct description, model, max_tokens.
Qed.

Lemma convert_templates_entries (ts acc : list (string * PromptTemplate.t)) :
  NoDup (acc ++ ts).*1 →
  convert_templates (entry <$> ts) acc = Ret (acc ++ ts).
Proof.
  revert acc. induction ts as [|[name t] ts IH]; intros acc Hnd.
  { simpl. by rewrite app_nil_r. }
  rewrite fmap_cons.
  change (convert_templates (entry (name, t) :: (entry <$> ts)) acc)
    with (template ← make_template (template_data t);
          convert_templates (entry <$> ts) (Dict.set acc name template)).
  rewrite make_template_data.
  change (convert_templates (entry <$> ts) (Dict.set acc name t) = Ret (acc ++ (name, t) :: ts)).
  rewrite DictFacts.set_fresh.
  - rewrite IH; rewrite <- app_assoc; done.
  - rewrite fmap_app in Hnd. apply NoDup_app in Hnd as (_ & Hd & _).
    intros Hk. apply (Hd name Hk). simpl. apply elem_of_cons. by left.
Qed.

Lemma templates_data (ts : list (string * PromptTemplate.t)) (d : list (string * Json.value)) :
  NoDup (d.*1 ++ ts.*1) →
  foldl (λ d '(name, template), Dict.set d name (template_data template)) d ts
  = d ++ (entry <$> ts).
Proof.
  revert d. induction ts as [|[name t] ts IH]; intros d Hnd; simpl.
  { by rewrite app_nil_r. }
  rewrite DictFacts.set_fresh.
  - rewrite IH; [by rewrite <- app_assoc|].
    rewrite fmap_app. simpl. by rewrite <- app_assoc.
  - apply NoDup_app in Hnd as (_ & Hd & _).
    intros Hk. apply (Hd name Hk). simpl. apply elem_of_cons. by left.
Qed.

Lemma category_data_wf (C : PromptCategory.t) :
  Dict.wf (PromptCategory.templates C) →
  category_data C
  = Json.Obj [
      ("version", Json.Str (PromptCategory.version C));
      ("category", Json.Str (PromptCategory.category C));
      ("description", Json.Str (PromptCategory.description C));
      ("templates", Json.Obj (entry <$> PromptCategory.templates C))
    ].
Proof. intros Hwf. unfold category_data. by rewrite templates_data. Qed.

Lemma plain_items_Str (l : list string) : Json.plain_items (Json.Str <$> l).
Proof. induction l; done. Qed.

Lemma plain_template_data (t : PromptTemplate.t) : Json.plain (template_data t).
Proof.
  destruct t as [content description variables model max_tokens]. split.
  - apply (bool_decide_unpack _). by vm_compute.
  - split_and!; try done.
    + by destruct description.
    + apply plain_items_Str.
    + by destruct model.
    + by destruct max_tokens.
Qed.

Lemma plain_entries (ts : list (string * PromptTemplate.t)) :
  Json.plain_members (entry <$> ts).
Proof.
  induction ts as [|[name t] ts IH]; [done|]. split; [|done].
  apply plain_template_data.
Qed.

Lemma plain_category_data (C : PromptCategory.t) :
  Dict.wf (PromptCategory.templates C) → Json.plain (category_data C).
Proof.
  intros Hwf. rewrite category_data_wf by done. split.
  - apply (bool_decide_unpack _). by vm_compute.
  - split_and!; try done. split.
    + rewrite <- list_fmap_compose. exact Hwf.
    + apply plain_entries.
Qed.

(** The text of a save decodes to the category saved, whatever the key. *)
Lemma decode_category_dumps (category : string) (C : PromptCategory.t) :
  Dict.wf (PromptCategory.templates C) →
  decode_category category (Json.dumps (category_data C)) = Ret C.
Proof.
  intros Hwf. unfold decode_category.
  rewrite JsonFacts.loads_dumps by by apply plain_category_data.
  rewrite category_data_wf by done. simpl.
  rewrite convert_templates_entries by done. simpl. by destruct C.
Qed.

(** Loading a file that holds the text of a save. *)
Lemma get_category_saved (w : world) (category : string) (C : PromptCategory.t)
    (writable : bool) :
  Dict.wf (PromptCategory.templates C) →
  files w !! get_category_file_path category
  = Some (File (Json.dumps (category_data C)) true writable) →
  get_category w category = Ret (Some C).
Proof.
  intros Hwf Hfile.
  unfold get_category, exists_. rewrite Hfile.
  rewrite bool_decide_eq_true_2 by eauto. simpl.
  unfold load_category. rewrite (read_text_file _ _ _ _ Hfile).
  rewrite FsFacts.universal_newlines_dumps by by apply plain_category_data.
  simpl. by rewrite decode_category_dumps.
Qed.

(** C1. Round trip: when [save_category] returns [True], [get_category]
    on the same key returns a category equal to the one saved, in the
    version, the declared name, the description and, for every template
    in order, the content, description, variables, model and
    [max_tokens].  (A category's [templates] is a [dict], so its keys
    are distinct.) *)
Theorem save_then_load (w w' : world) (category : string) (C : PromptCategory.t) :
  Dict.wf (PromptCategory.templates C) →
  save_category category C w = (Ret true, w') →
  get_category w' category = Ret (Some C).
Proof.
  intros Hwf Hsave.
  (* the file the save leaves holds the encoding of [C] and can be read *)
  pose proof (save_category_file w w' category C Hsave) as Hfile.
  unfold get_category, exists_. rewrite Hfile.
  rewrite bool_decide_eq_true_2 by eauto. simpl.
  unfold load_category. rewrite (read_text_file _ _ _ _ Hfile).
  (* reading changes nothing: the encoder writes no carriage return *)
  rewrite FsFacts.universal_newlines_dumps by by apply plain_category_data.
  (* the decoder and the validation give [C] back *)
  simpl. by rewrite decode_category_dumps.
Qed.



(** C5. Backup before overwrite.  After a save of [C1] and then a save
    of [C2] under the same key, both returning [True]: the backup path
    holds exactly the text the category file held before the second
    save; that text decodes to [C1]; and the second save wrote the
    backup first and the new content after it. *)
Theorem backup_before_overwrite (w0 w1 w2 : world) (category : string)
    (C1 C2 : PromptCategory.t) :
  Dict.wf (PromptCategory.templates C1) →
  save_category category C1 w0 = (Ret true, w1) →
  save_category category C2 w1 = (Ret true, w2) →
  ∃ old readable,
    files w1 !! get_category_file_path category = Some (File old true true)
    ∧ files w2 !! backup_path category = Some (File old readable true)
    ∧ decode_category category old = Ret C1
    ∧ journal w2
      = journal w1 ++ [Wrote (backup_path category) old;
                       Wrote (get_category_file_path category)
                             (Json.dumps (category_data C2))].
Proof.
  intros Hwf Hfile1%save_category_file Hsave2.
  apply save_category_inv in Hsave2 as [[Hnone _] | (old & wr & w1' & Hold & Hb & Hw)].
  { by rewrite Hfile1 in Hnone. }
  rewrite Hfile1 in Hold. injection Hold as <- <-.
  rewrite FsFacts.universal_newlines_dumps in Hb by by apply plain_category_data.
  apply write_text_inv in Hb as (rb & _ & Hf1 & Hj1).
  apply write_text_inv in Hw as (r & _ & Hf2 & Hj2).
  exists (Json.dumps (category_data C1)), rb. split_and!.
  - done.
  - rewrite Hf2, Hf1, lookup_insert_ne by (apply not_eq_sym, backup_path_ne).
    apply lookup_insert_eq.
  - by apply decode_category_dumps.
  - rewrite Hj2, Hj1. by rewrite <- app_assoc.
Qed.

(** *** Loading never raises *)

Lemma get_category_returns (w : world) (category : string) :
  ∃ r, get_category w category = Ret r.
Proof.
  unfold get_category. destruct (negb _); [eauto|].
  unfold try_except. destruct (Some <$> load_category w category); eauto.
Qed.

Lemma get_category_load (w : world) (category : string) :
  is_Some (files w !! get_category_file_path category) →
  get_category w category
  = match load_category w category with
    | Ret C => Ret (Some C)
    | Raise _ => Ret None
    end.
Proof.
  intros Hf. unfold get_category, exists_. rewrite bool_decide_eq_true_2 by done.
  simpl. by destruct (load_category w category).
Qed.


(** *** Defaults *)







(** *** Listing and summarizing *)

Lemma list_categories_empty (w : world) : files w = ∅ → list_categories w = [].
Proof.
  intros Hw. unfold list_categories, glob_ext. by rewrite Hw, map_to_list_empty.
Qed.

Lemma list_categories_sorted (w : world) : Sorted String.le (list_categories w).
Proof. apply Sorted_merge_sort; apply _. Qed.

Lemma foldl_snoc_fmap {A B} (f : A → B) (l : list A) (acc : list B) :
  foldl (λ acc x, acc ++ [f x]) acc l = acc ++ (f <$> l).
Proof.
  revert acc. induction l as [|x l IH]; intros acc; simpl.
  - by rewrite app_nil_r.
  - by rewrite IH, <- app_assoc.
Qed.

(** What is listed: the stem of every entry of the directory, file or
    not, whose name ends with [.json]. *)
Lemma elem_of_list_categories (w : world) (x : string) :
  x ∈ list_categories w
  ↔ ∃ path, is_Some (files w !! path) ∧ Str.contains "/" path = false
            ∧ Str.endswith path ".json" = true ∧ x = stem path.
Proof.
  unfold list_categories, sorted. rewrite merge_sort_Permutation.
  rewrite (foldl_snoc_fmap stem _ []). simpl.
  rewrite list_elem_of_fmap. unfold glob_ext. split.
  - intros (path & -> & Hp). apply list_elem_of_filter in Hp as [[Hs He] Hp].
    apply RenderFacts.elem_of_keys in Hp. by exists path.
  - intros (path & Hp & Hs & He & ->). exists path. split; [done|].
    apply list_elem_of_filter. split; [done|]. by apply RenderFacts.elem_of_keys.
Qed.

Lemma summaries_cons (w : world) (name : string) (names : list string) :
  summaries w (name :: names)
  = match get_category w name with
    | Ret (Some C) => (name, summary_of C) :: summaries w names
    | _ => summaries w names
    end.
Proof. unfold summaries. simpl. by destruct (get_category w name) as [[C|]|]. Qed.

Lemma summarize_loop_distinct (w : world) (names : list string)
    (all_prompts : list (string * category_summary)) (total : nat) :
  NoDup (all_prompts.*1 ++ names) →
  summarize_loop w names all_prompts total
  = Ret (all_prompts ++ summaries w names,
         (total + sum_list (template_count <$> (summaries w names).*2))%nat).
Proof.
  revert all_prompts total. induction names as [|name names IH]; intros all total Hnd.
  { simpl. by rewrite app_nil_r, Nat.add_0_r. }
  change (summarize_loop w (name :: names) all total)
    with (category ← get_category w name;
          match category with
          | Some C =>
              summarize_loop w names (Dict.set all name (summary_of C))
                             (total + length (PromptCategory.templates C))%nat
          | None => summarize_loop w names all total
          end).
  rewrite summaries_cons.
  destruct (get_category_returns w name) as [[C|] ->]; simpl.
  - rewrite DictFacts.set_fresh.
    + rewrite IH.
      * rewrite <- app_assoc. simpl. do 2 f_equal. by rewrite <- Nat.add_assoc.
      * rewrite fmap_app. simpl. by rewrite <- app_assoc.
    + apply NoDup_app in Hnd as (_ & Hd & _).
      intros Hk. apply (Hd name Hk). apply elem_of_cons. by left.
  - apply IH. apply NoDup_app in Hnd as (Ha & Hd & Hn).
    apply NoDup_app. split_and!; [done| |by apply NoDup_cons in Hn as [_ ?]].
    intros x Hx Hx'. apply (Hd x Hx). apply elem_of_cons. by right.
Qed.

(** When no name is listed twice, the summary holds the categories
    that load, in the order listed, and its totals are their number and
    the sum of their template counts. *)
Lemma get_all_prompts_distinct (w : world) :
  NoDup (list_categories w) →
  get_all_prompts w
  = Ret {| categories := summaries w (list_categories w);
           total_categories := length (summaries w (list_categories w));
           total_templates :=
             sum_list (template_count <$> (summaries w (list_categories w)).*2) |}.
Proof.
  intros Hnd. unfold get_all_prompts.
  by rewrite summarize_loop_distinct.
Qed.

End StorageFacts.

(** ** The claims on sample values *)

Module Cases.
Import Fs PromptStorage Template.

(** C2, on the code.  After a save and a timestamped backup of the
    category ["greet"], the directory holds the category file and the
    backup file, and [list_categories] lists the backup as a category. *)
Theorem list_categories_lists_backup :
  (save_category "greet" Sample.greetings Sample.empty_world).1 = Ret true
  ∧ (backup_category Sample.now "greet" Sample.saved).1 = Ret true
  ∧ (map_to_list (files Sample.backed_up)).*1
    ≡ₚ ["greet.json"; "greet_20240102_030405.backup.json"]
  ∧ list_categories Sample.backed_up = ["greet"; "greet_20240102_030405.backup"].
Proof.
  split_and!; [by vm_compute..| |by vm_compute].
  vm_compute. apply perm_swap.
Qed.

(** C8, on the code.  With the files [.json] and [.json.json] in the
    directory, [list_categories] lists the name [.json] twice, and
    [get_all_prompts] reports one category, of two templates, but a
    total of four templates. *)
Theorem get_all_prompts_counts_twice :
  (map_to_list (files Sample.dotted)).*1 ≡ₚ [".json"; ".json.json"]
  ∧ list_categories Sample.dotted = [".json"; ".json"]
  ∧ get_category Sample.dotted ".json" = Ret (Some Sample.greetings)
  ∧ get_all_prompts Sample.dotted
    = Ret {| categories :=
               [(".json", {| summary_version := "1.0.0";
                             summary_description := "Ways to say hello";
                             template_count := 2;
                             template_names := ["hello"; "price"] |})];
             total_categories := 1;
             total_templates := 4 |}.
Proof.
  split_and!; [|by vm_compute..].
  vm_compute. apply perm_swap.
Qed.

(** The round trip on the sample category. *)
Lemma save_then_load_witness :
  Dict.wf (PromptCategory.templates Sample.greetings)
  ∧ save_category "greet" Sample.greetings Sample.empty_world = (Ret true, Sample.saved)
  ∧ get_category Sample.saved "greet" = Ret (Some Sample.greetings).
Proof.
  assert (Hwf : Dict.wf (PromptCategory.templates Sample.greetings)).
  { apply (bool_decide_unpack _). vm_compute. exact I. }
  assert (Hsave : save_category "greet" Sample.greetings Sample.empty_world
                  = (Ret true, Sample.saved)).
  { vm_compute. reflexivity. }
  split_and!; [exact Hwf|exact Hsave|].
  exact (StorageFacts.save_then_load _ _ _ _ Hwf Hsave).
Defined.

(** The backup of the sample category after a second save. *)
Lemma backup_before_overwrite_witness :
  ∃ old readable,
    files Sample.saved !! get_category_file_path "greet" = Some (File old true true)
    ∧ files Sample.saved_twice !! backup_path "greet" = Some (File old readable true)
    ∧ decode_category "greet" old = Ret Sample.greetings
    ∧ journal Sample.saved_twice
      = journal Sample.saved ++ [Wrote (backup_path "greet") old;
                                 Wrote (get_category_file_path "greet")
                                       (Json.dumps (category_data Sample.farewells))].
Proof.
  apply (StorageFacts.backup_before_overwrite Sample.empty_world).
  - apply (bool_decide_unpack _). vm_compute. exact I.
  - vm_compute. reflexivity.
  - vm_compute. reflexivity.
Defined.




(** The placeholder [${age}] of the sample template, [age] not given. *)
Lemma render_missing_variable_policy_witness :
  replacement ({[ "name" := "Ada" ]} : gmap string string) (Match (Braced "age")) = "${age}".
Proof.
  destruct (RenderFacts.render_missing_variable_policy sorted_layout) as [_ Hgen].
  destruct (Hgen string _ ({[ "name" := "Ada" ]} : gmap string string)
              "Hello $name, you are ${age}") as (_ & _ & Hseg & _).
  apply (Hseg (Match (Braced "age")) "age").
  - apply (list_elem_of_lookup_2 _ 17%nat). vm_compute. reflexivity.
  - reflexivity.
  - vm_compute. reflexivity.
Defined.

(** The escape in the sample template. *)
Lemma render_escaping_witness :
  safe_substitute ({[ "item" := "widget" ]} : gmap string string) "Cost: $$5 for $item"
  = "Cost: " +:+ "$" +:+ safe_substitute ({[ "item" := "widget" ]} : gmap string string)
                                         "5 for $item".
Proof.
  destruct (RenderFacts.render_escaping sorted_layout) as (_ & _ & Hgen).
  destruct (Hgen string _ ({[ "item" := "widget" ]} : gmap string string))
    as (_ & _ & _ & _ & Hesc & _).
  apply (Hesc "Cost: " "5 for $item"). reflexivity.
Defined.

End Cases.

(** ** Placeholders, one at a time *)

Module PlaceholderFacts.
Import Template PromptStorage Words.

Lemma is_id_start_char (c : ascii) : is_id_start c = true → is_id_char c = true.
Proof. unfold is_id_char. by intros ->. Qed.

Lemma span_id_all (id rest : string) :
  all_id_chars id = true → id_stops rest → span_id (id +:+ rest) = (id, rest).
Proof.
  induction id as [|c id IH]; intros Hall Hrest.
  - change ("" +:+ rest) with rest.
    destruct rest as [|d rest]; [done|]. simpl in *. by rewrite Hrest.
  - simpl in Hall. apply andb_true_iff in Hall as [Hc Hid].
    rewrite StrFacts.app_cons. simpl. by rewrite Hc, IH.
Qed.

Lemma span_id_identifier (id rest : string) :
  is_identifier id = true → id_stops rest → span_id (id +:+ rest) = (id, rest).
Proof.
  destruct id as [|c id]; [done|]. intros Hid Hrest.
  simpl in Hid. apply andb_true_iff in Hid as [Hc Hid].
  apply span_id_all; [|done]. simpl. by rewrite (is_id_start_char c Hc).
Qed.

Lemma match_at_id_start (c : ascii) (r : string) :
  is_id_start c = true →
  match_at (String c r)
  = let '(id, _) := span_id (String c r) in (Named id, String.length id).
Proof. destruct c as [[] [] [] [] [] [] [] []]; done. Qed.

(** A dollar sign before an identifier is a named match of the whole
    identifier. *)
Lemma match_at_named (id rest : string) :
  is_identifier id = true → id_stops rest →
  match_at (id +:+ rest) = (Named id, String.length id).
Proof.
  intros Hid Hrest. pose proof (span_id_identifier id rest Hid Hrest) as Hspan.
  destruct id as [|c id]; [done|]. simpl in Hid. apply andb_true_iff in Hid as [Hc _].
  rewrite StrFacts.app_cons in *. rewrite match_at_id_start by done. by rewrite Hspan.
Qed.

Lemma id_stops_brace (rest : string) : id_stops (String "}" rest).
Proof. done. Qed.

(** A dollar sign before an identifier in braces is a braced match. *)
Lemma match_at_braced (id rest : string) :
  is_identifier id = true →
  match_at (String "{" (id +:+ String "}" rest)) = (Braced id, (String.length id + 2)%nat).
Proof.
  intros Hid.
  pose proof (span_id_identifier id (String "}" rest) Hid (id_stops_brace rest)) as Hspan.
  destruct id as [|c id]; [done|]. simpl in Hid. apply andb_true_iff in Hid as [Hc _].
  rewrite StrFacts.app_cons in *.
  change (match_at (String "{" (String c (id +:+ String "}" rest))))
    with (if is_id_start c then
            let '(id, after) := span_id (String c (id +:+ String "}" rest)) in
            match after with
            | String "}" _ => (Braced id, (String.length id + 2)%nat)
            | _ => (Invalid, 0%nat)
            end
          else (Invalid, 0%nat)).
  by rewrite Hc, Hspan.
Qed.

Section substitution.
Context {V : Type} `{PyStr V}.
Implicit Types (mapping : gmap string V).

Lemma convert_named mapping (id : string) :
  convert mapping (Named id) = value_or mapping id ("$" +:+ id).
Proof. done. Qed.

Lemma convert_braced mapping (id : string) :
  convert mapping (Braced id) = value_or mapping id ("${" +:+ id +:+ "}").
Proof. done. Qed.

Lemma safe_substitute_named mapping (id rest : string) :
  is_identifier id = true → id_stops rest →
  safe_substitute mapping (String "$" (id +:+ rest))
  = value_or mapping id ("$" +:+ id) +:+ safe_substitute mapping rest.
Proof.
  intros Hid Hrest.
  rewrite TemplateFacts.safe_substitute_dollar, match_at_named by done. simpl.
  by rewrite TemplateFacts.scan_skip, TemplateFacts.safe_substitute_join.
Qed.

Lemma safe_substitute_braced mapping (id rest : string) :
  is_identifier id = true →
  safe_substitute mapping (String "$" (String "{" (id +:+ String "}" rest)))
  = value_or mapping id ("${" +:+ id +:+ "}") +:+ safe_substitute mapping rest.
Proof.
  intros Hid.
  rewrite TemplateFacts.safe_substitute_dollar, match_at_braced by done.
  cbn [fst snd].
  replace (String.length id + 2)%nat
    with (String.length (String "{" (id +:+ "}"))).
  2:{ simpl. rewrite StrFacts.length_app. simpl. lia. }
  replace (String "{" (id +:+ String "}" rest)) with (String "{" (id +:+ "}") +:+ rest).
  2:{ rewrite StrFacts.app_cons, StrFacts.app_assoc. done. }
  by rewrite TemplateFacts.scan_skip, TemplateFacts.safe_substitute_join.
Qed.

End substitution.

Lemma placeholders_named (id rest : string) :
  is_identifier id = true → id_stops rest →
  placeholders (String "$" (id +:+ rest)) = id :: placeholders rest.
Proof.
  intros Hid Hrest. unfold placeholders.
  rewrite TemplateFacts.finditer_dollar, match_at_named by done. simpl.
  by rewrite TemplateFacts.scan_skip.
Qed.

Lemma placeholders_braced (id rest : string) :
  is_identifier id = true →
  placeholders (String "$" (String "{" (id +:+ String "}" rest))) = id :: placeholders rest.
Proof.
  intros Hid. unfold placeholders.
  rewrite TemplateFacts.finditer_dollar, match_at_braced by done. cbn [fst snd omap].
  replace (String.length id + 2)%nat
    with (String.length (String "{" (id +:+ "}"))).
  2:{ simpl. rewrite StrFacts.length_app. simpl. lia. }
  replace (String "{" (id +:+ String "}" rest)) with (String "{" (id +:+ "}") +:+ rest).
  2:{ rewrite StrFacts.app_cons, StrFacts.app_assoc. done. }
  by rewrite TemplateFacts.scan_skip.
Qed.

(** X1. A named placeholder.  After text without a dollar sign, a
    dollar sign and an identifier, followed by text at which the
    identifier stops, is replaced by the string form of the value given
    for the whole identifier, or left as written when none is given; the
    rest is rendered on its own, and the identifier is the first of the
    placeholders. *)
Theorem named_placeholder_rendering (V : Type) (S : PyStr V) (mapping : gmap string V)
    (p id rest : string) :
  Str.contains "$" p = false →
  is_identifier id = true →
  id_stops rest →
  safe_substitute mapping (p +:+ "$" +:+ id +:+ rest)
  = p +:+ value_or mapping id ("$" +:+ id) +:+ safe_substitute mapping rest
  ∧ placeholders (p +:+ "$" +:+ id +:+ rest) = id :: placeholders rest.
Proof.
  intros Hp Hid Hrest. change ("$" +:+ id +:+ rest) with (String "$" (id +:+ rest)). split.
  - rewrite TemplateFacts.safe_substitute_plain by done.
    by rewrite safe_substitute_named.
  - unfold placeholders at 1. rewrite TemplateFacts.finditer_plain by done.
    by apply placeholders_named.
Qed.

(** X2. A braced placeholder.  After text without a dollar sign, a
    dollar sign and an identifier in braces is replaced by the string
    form of the value given for the identifier, or left as written when
    none is given, whatever follows the closing brace. *)
Theorem braced_placeholder_rendering (V : Type) (S : PyStr V) (mapping : gmap string V)
    (p id rest : string) :
  Str.contains "$" p = false →
  is_identifier id = true →
  safe_substitute mapping (p +:+ "${" +:+ id +:+ "}" +:+ rest)
  = p +:+ value_or mapping id ("${" +:+ id +:+ "}") +:+ safe_substitute mapping rest
  ∧ placeholders (p +:+ "${" +:+ id +:+ "}" +:+ rest) = id :: placeholders rest.
Proof.
  intros Hp Hid.
  change ("${" +:+ id +:+ "}" +:+ rest) with (String "$" (String "{" (id +:+ String "}" rest))).
  split.
  - rewrite TemplateFacts.safe_substitute_plain by done.
    by rewrite safe_substitute_braced.
  - unfold placeholders at 1. rewrite TemplateFacts.finditer_plain by done.
    by apply placeholders_braced.
Qed.

End PlaceholderFacts.

(** ** Rendering as a whole *)

Module RenderMore.
Import Template Fs PromptStorage Words.


Section render.
Context (L : set_layout) {V : Type} `{PyStr V}.
Implicit Types (variables : gmap string V).

Lemma not_elem_of_provided variables (x : string) :
  x ∉ set_iter L (map_to_list variables).*1 ↔ variables !! x = None.
Proof.
  rewrite PySetFacts.elem_of_set_iter, RenderFacts.elem_of_keys, eq_None_not_Some. done.
Qed.




End render.


(** X4. The lists of a rendering.  The template variables are the
    identifiers of the content, each once; the provided variables are
    the keys of the mapping, each once; every missing variable is a
    template variable; and nothing is missing exactly when the mapping
    gives a value for every identifier of the content. *)
Theorem render_lists (L : set_layout) (V : Type) (S : PyStr V)
    (content : string) (variables : gmap string V) :
  ∃ rendered missing template_vars provided_vars,
    render L content variables = Success rendered missing template_vars provided_vars
    ∧ template_vars ≡ₚ get_identifiers content
    ∧ NoDup provided_vars
    ∧ (∀ k, k ∈ provided_vars ↔ is_Some (variables !! k))
    ∧ missing ⊆ template_vars
    ∧ (missing = [] ↔ ∀ id, id ∈ get_identifiers content → is_Some (variables !! id)).
Proof.
  do 4 eexists. rewrite RenderFacts.render_success. split; [reflexivity|]. split_and!.
  - apply PySetFacts.set_iter_NoDup, TemplateFacts.NoDup_get_identifiers.
  - apply PySetFacts.NoDup_set_iter.
  - intros k. by rewrite PySetFacts.elem_of_set_iter, RenderFacts.elem_of_keys.
  - intros x. rewrite PySetFacts.elem_of_set_iter, list_elem_of_filter. tauto.
  - split.
    + intros Hnil id Hid. destruct (variables !! id) as [v|] eqn:Hv; [eauto|].
      exfalso. apply (not_elem_of_nil id). rewrite <- Hnil.
      apply PySetFacts.elem_of_set_iter, list_elem_of_filter. split.
      * by apply not_elem_of_provided.
      * by apply PySetFacts.elem_of_set_iter.
    + intros Hall.
      destruct (filter _ (set_iter L (get_identifiers content))) as [|y ys] eqn:Hf.
      { apply PySetFacts.set_iter_nil. }
      exfalso. assert (Hy : y ∈ y :: ys) by (apply elem_of_cons; by left).
      rewrite <- Hf in Hy. apply list_elem_of_filter in Hy as [Hy1 Hy2].
      apply not_elem_of_provided in Hy1. apply PySetFacts.elem_of_set_iter in Hy2.
      destruct (Hall y Hy2) as [v Hv]. by rewrite Hv in Hy1.
Qed.

(** X5. Content without a dollar sign.  It is rendered as it is, with
    no template variables and nothing missing, whatever the mapping. *)
Theorem render_without_placeholders (L : set_layout) (V : Type) (S : PyStr V)
    (content : string) (variables : gmap string V) :
  Str.contains "$" content = false →
  render L content variables
  = Success content [] [] (set_iter L (map_to_list variables).*1).
Proof.
  intros Hc. rewrite RenderFacts.render_success.
  assert (Hids : get_identifiers content = []).
  { rewrite <- (StrFacts.app_nil_r content).
    rewrite (TemplateFacts.get_identifiers_placeholders _ ""); [done|].
    unfold placeholders. by rewrite TemplateFacts.finditer_plain. }
  assert (Htext : safe_substitute variables content = content).
  { rewrite <- (StrFacts.app_nil_r content) at 1.
    rewrite TemplateFacts.safe_substitute_plain by done.
    apply StrFacts.app_nil_r. }
  rewrite Hids, Htext, PySetFacts.set_iter_nil. simpl.
  by rewrite PySetFacts.set_iter_nil.
Qed.

(** X6. What is saved is what is rendered.  After [save_category]
    returned [True] for a category, [test_prompt_rendering] on the same
    key renders the content of the template saved under a name, and for
    a name the category has no template under it returns the failure
    record that names the template and the key. *)
Theorem rendering_after_save (L : set_layout) (V : Type) (S : PyStr V)
    (w w' : world) (category : string) (C : PromptCategory.t)
    (variables : gmap string V) (template_name : string) :
  Dict.wf (PromptCategory.templates C) →
  save_category category C w = (Ret true, w') →
  test_prompt_rendering L w' category template_name variables
  = Ret (match Dict.get (PromptCategory.templates C) template_name with
         | Some template_obj => render L (PromptTemplate.content template_obj) variables
         | None => Failure ("Template '" +:+ template_name +:+
                            "' not found in category '" +:+ category +:+ "'")
         end).
Proof.
  intros Hwf Hsave.
  assert (Hload : get_category w' category = Ret (Some C)).
  { apply (StorageFacts.get_category_saved _ _ _ true); [done|].
    by apply (StorageFacts.save_category_file w). }
  unfold test_prompt_rendering. rewrite Hload. simpl.
  by destruct (Dict.get (PromptCategory.templates C) template_name).
Qed.

End RenderMore.

(** ** Paths of the store *)

Module PathFacts.
Import Fs PromptStorage Words.

Lemma contains_app (ch : ascii) (a b : string) :
  Str.contains ch (a +:+ b) = Str.contains ch a || Str.contains ch b.
Proof.
  induction a as [|x a IH]; [done|]. rewrite StrFacts.app_cons. simpl.
  by case_bool_decide.
Qed.

Lemma after_last_without (ch : ascii) (s : string) :
  Str.contains ch s = false → Str.after_last ch s = s.
Proof. destruct s as [|c s]; [done|]. intros Hs. simpl in *. by rewrite Hs. Qed.

Lemma after_last_app (ch : ascii) (a b : string) :
  Str.contains ch b = false → Str.after_last ch (a +:+ String ch b) = b.
Proof.
  intros Hb. induction a as [|x a IH].
  - change ("" +:+ String ch b) with (String ch b).
    change (Str.after_last ch (String ch b))
      with (if Str.contains ch (String ch b) then Str.after_last ch b else String ch b).
    simpl. rewrite bool_decide_eq_true_2 by done. by apply after_last_without.
  - rewrite StrFacts.app_cons.
    change (Str.after_last ch (String x (a +:+ String ch b)))
      with (if Str.contains ch (String x (a +:+ String ch b))
            then Str.after_last ch (a +:+ String ch b)
            else String x (a +:+ String ch b)).
    assert (Hc : Str.contains ch (String x (a +:+ String ch b)) = true).
    { simpl. case_bool_decide; [done|]. rewrite contains_app. simpl.
      rewrite bool_decide_eq_true_2 by done. apply orb_true_r. }
    by rewrite Hc.
Qed.

Lemma substring_prefix (a b : string) :
  String.substring 0 (String.length a) (a +:+ b) = a.
Proof.
  induction a as [|x a IH].
  - simpl. by destruct ("" +:+ b).
  - rewrite StrFacts.app_cons. simpl. by rewrite IH.
Qed.

Lemma drop_end_app (a b : string) : Str.drop_end (String.length b) (a +:+ b) = a.
Proof.
  unfold Str.drop_end. rewrite StrFacts.length_app.
  replace (String.length a + String.length b - String.length b)%nat
    with (String.length a) by lia.
  apply substring_prefix.
Qed.

Lemma drop_end_all (s : string) : Str.drop_end (String.length s) s = "".
Proof. apply (drop_end_app "" s). Qed.

Lemma endswith_app (a b : string) : Str.endswith (a +:+ b) b = true.
Proof.
  induction a as [|x a IH].
  - change ("" +:+ b) with b. destruct b; simpl; by rewrite ?bool_decide_eq_true_2.
  - rewrite StrFacts.app_cons. simpl. case_bool_decide; [done|]. exact IH.
Qed.

(** The stem of a name made of a base without a slash, not empty, and
    the extension [.json] is the base. *)
Lemma stem_json (base : string) :
  Str.contains "/" base = false → base ≠ "" → stem (base +:+ ".json") = base.
Proof.
  intros Hslash Hne.
  assert (Hname : name (base +:+ ".json") = base +:+ ".json").
  { apply after_last_without. by rewrite contains_app, Hslash. }
  assert (Hext : Str.after_last "." (base +:+ ".json") = "json").
  { by apply (after_last_app "." base "json"). }
  assert (Hsuffix : suffix (base +:+ ".json") = ".json").
  { unfold suffix. rewrite Hname. cbv zeta. rewrite Hext.
    rewrite contains_app. replace (Str.contains "." ".json") with true by done.
    rewrite orb_true_r. rewrite bool_decide_eq_true_2 by done.
    rewrite bool_decide_eq_true_2; [done|].
    rewrite StrFacts.length_app. simpl. destruct base; [done|simpl; lia]. }
  unfold stem. rewrite Hsuffix, Hname. apply (drop_end_app base ".json").
Qed.

Lemma digit_not_slash (d : N) : (d < 10)%N → Str.digit d ≠ "/"%char.
Proof.
  intros Hd. assert (Hcases : d ∈ [0; 1; 2; 3; 4; 5; 6; 7; 8; 9]%N).
  { apply (list_elem_of_lookup_2 _ (N.to_nat d)).
    destruct d as [|p]; [done|].
    do 10 (destruct p as [p|p|]; try done; try lia). }
  set_unfold. by destruct Hcases as [->|[->|[->|[->|[->|[->|[->|[->|[->|[->|[]]]]]]]]]]].
Qed.

Lemma two_digits_no_slash (n : N) : Str.contains "/" (two_digits n) = false.
Proof.
  unfold two_digits. simpl.
  rewrite !bool_decide_eq_false_2; [done| |];
    apply digit_not_slash; apply N.mod_lt; done.
Qed.

Lemma strftime_no_slash (now : datetime) : Str.contains "/" (strftime now) = false.
Proof.
  unfold strftime. rewrite !contains_app, !two_digits_no_slash. done.
Qed.

Lemma timestamped_name_no_slash (category : string) (now : datetime) :
  Str.contains "/" (timestamped_name category now) = Str.contains "/" category.
Proof.
  unfold timestamped_name. rewrite !contains_app, strftime_no_slash. simpl.
  by rewrite !orb_false_r.
Qed.

Lemma timestamped_name_key (category : string) (now : datetime) :
  get_category_file_path (timestamped_key category now) = timestamped_name category now.
Proof.
  unfold get_category_file_path, timestamped_key, timestamped_name.
  by rewrite !StrFacts.app_assoc.
Qed.

(** The path [backup_category] computes, or [ValueError] for a key with
    a slash. *)
Lemma with_name_timestamped (category : string) (now : datetime) :
  with_name (get_category_file_path category) (timestamped_name category now)
  = if Str.contains "/" category then Raise ValueError
    else Ret (timestamped_name category now).
Proof.
  unfold with_name. rewrite timestamped_name_no_slash.
  assert (Hlen : (12 ≤ String.length (timestamped_name category now))%nat).
  { unfold timestamped_name. rewrite !StrFacts.length_app. simpl. lia. }
  rewrite bool_decide_eq_false_2 by (intros Heq; rewrite Heq in Hlen; simpl in Hlen; lia).
  simpl. destruct (Str.contains "/" category) eqn:Hslash; [done|].
  rewrite bool_decide_eq_false_2 by (intros Heq; rewrite Heq in Hlen; simpl in Hlen; lia).
  simpl. unfold name, get_category_file_path.
  rewrite after_last_without by by rewrite contains_app, Hslash.
  by rewrite drop_end_all.
Qed.

Lemma timestamped_name_ne (category : string) (now : datetime) :
  timestamped_name category now ≠ get_category_file_path category.
Proof.
  unfold timestamped_name, get_category_file_path. intros Heq.
  apply (inj (String.app category)) in Heq. done.
Qed.

End PathFacts.

(** ** Listing, saving and backing up *)

Module StoreMore.
Import Fs PromptStorage Words.

(** *** Listing *)

Lemma glob_ext_NoDup (w : world) (ext : string) : NoDup (glob_ext w ext).
Proof. unfold glob_ext. apply NoDup_filter, NoDup_fst_map_to_list. Qed.

Lemma elem_of_glob_ext (w : world) (ext path : string) :
  path ∈ glob_ext w ext
  ↔ is_Some (files w !! path) ∧ Str.contains "/" path = false
    ∧ Str.endswith path ext = true.
Proof.
  unfold glob_ext. rewrite list_elem_of_filter, RenderFacts.elem_of_keys. tauto.
Qed.

Lemma list_categories_perm (w : world) :
  list_categories w ≡ₚ stem <$> glob_ext w ".json".
Proof.
  unfold list_categories, sorted. rewrite merge_sort_Permutation.
  by rewrite (StorageFacts.foldl_snoc_fmap stem _ []).
Qed.

(** X7. What [list_categories] returns: the stems of the entries of the
    directory whose name ends with [.json], one for each such entry, in
    lexicographic order. *)
Theorem list_categories_spec (w : world) :
  Sorted String.le (list_categories w)
  ∧ list_categories w ≡ₚ stem <$> glob_ext w ".json"
  ∧ NoDup (glob_ext w ".json")
  ∧ (∀ path, path ∈ glob_ext w ".json"
       ↔ is_Some (files w !! path) ∧ Str.contains "/" path = false
         ∧ Str.endswith path ".json" = true).
Proof.
  split_and!.
  - apply Sorted_merge_sort; apply _.
  - apply list_categories_perm.
  - apply glob_ext_NoDup.
  - apply elem_of_glob_ext.
Qed.

(** *** Saving, case by case *)

Lemma save_category_cases (w : world) (category : string) (C : PromptCategory.t) :
  let file_path := get_category_file_path category in
  let text := Json.dumps (category_data C) in
  save_category category C w
  = match files w !! file_path with
    | None =>
        match write_text w file_path text with
        | Ret w2 => (Ret true, w2)
        | Raise _ => (Ret false, w)
        end
    | Some (File old true _) =>
        match write_text w (backup_path category) (universal_newlines old) with
        | Ret w1 =>
            match write_text w1 file_path text with
            | Ret w2 => (Ret true, w2)
            | Raise _ => (Ret false, w1)
            end
        | Raise _ => (Ret false, w)
        end
    | Some _ => (Ret false, w)
    end.
Proof.
  unfold save_category, copy_text, io_try.
  unfold mbind, io_bind, reading, writing, mret, io_ret, exists_, read_text.
  cbv beta zeta.
  destruct (files w !! get_category_file_path category) as [[old [|] wr|]|] eqn:Hf.
  - rewrite bool_decide_eq_true_2 by eauto. cbv beta iota. rewrite Hf.
    destruct (write_text w (backup_path category) (universal_newlines old)) as [w1|e];
      [|done].
    by destruct (write_text w1 _ _).
  - rewrite bool_decide_eq_true_2 by eauto. cbv beta iota. by rewrite Hf.
  - rewrite bool_decide_eq_true_2 by eauto. cbv beta iota. by rewrite Hf.
  - rewrite bool_decide_eq_false_2 by by intros [? ?].
    by destruct (write_text w _ _).
Qed.

Lemma write_text_writable (w : world) (path text : string) :
  writable_at w path →
  ∃ readable,
    write_text w path text
    = Ret {| files := <[path := File text readable true]> (files w);
             journal := journal w ++ [Wrote path text] |}
    ∧ (files w !! path = None ∧ readable = true
       ∨ ∃ old, files w !! path = Some (File old readable true)).
Proof.
  unfold writable_at, write_text.
  destruct (files w !! path) as [[old r wr|]|]; [|done|eauto].
  intros ->. eauto.
Qed.

Lemma write_text_not_writable (w : world) (path text : string) :
  ¬ writable_at w path → ∃ e, write_text w path text = Raise e.
Proof.
  unfold writable_at, write_text.
  destruct (files w !! path) as [[old r [|]|]|]; try done; eauto.
Qed.





(** X9. A saved category is listed.  After [save_category] returned
    [True] under a key that is not empty and has no slash,
    [list_categories] holds the key. *)
Theorem saved_category_is_listed (w w' : world) (category : string)
    (C : PromptCategory.t) :
  Str.contains "/" category = false →
  category ≠ "" →
  save_category category C w = (Ret true, w') →
  category ∈ list_categories w'.
Proof.
  intros Hslash Hne Hfile%StorageFacts.save_category_file.
  apply StorageFacts.elem_of_list_categories.
  exists (get_category_file_path category). split_and!.
  - rewrite Hfile. eauto.
  - unfold get_category_file_path. by rewrite PathFacts.contains_app, Hslash.
  - apply PathFacts.endswith_app.
  - symmetry. by apply PathFacts.stem_json.
Qed.


(** X11. A save over something that cannot be read.  When what is
    under the key is a directory, or a file this process may not read,
    [save_category] returns [False] and changes nothing. *)
Theorem save_over_unreadable (w : world) (category : string) (C : PromptCategory.t) :
  is_Some (files w !! get_category_file_path category) →
  ¬ readable_at w (get_category_file_path category) →
  save_category category C w = (Ret false, w).
Proof.
  intros [nd Hnd] Hr. rewrite save_category_cases. cbv zeta.
  unfold readable_at in Hr. rewrite Hnd in *.
  destruct nd as [old [|] wr|]; [by destruct Hr|done|done].
Qed.

(** X12. A save over a file that can be read and not written.  When
    the backup can be written, [save_category] returns [False] after it
    has replaced the backup with the text of the file; the category
    file stays as it was. *)
Theorem save_over_read_only (w : world) (category old : string) (C : PromptCategory.t) :
  files w !! get_category_file_path category = Some (File old true false) →
  writable_at w (backup_path category) →
  ∃ w' readable,
    save_category category C w = (Ret false, w')
    ∧ files w' !! backup_path category
      = Some (File (universal_newlines old) readable true)
    ∧ files w' !! get_category_file_path category = Some (File old true false)
    ∧ journal w' = journal w ++ [Wrote (backup_path category) (universal_newlines old)].
Proof.
  intros Hf Hb. rewrite save_category_cases. cbv zeta. rewrite Hf.
  destruct (write_text_writable w (backup_path category)
              (universal_newlines old) Hb) as (r & -> & _).
  set (w1 := {| files := _ |}).
  assert (Hf1 : files w1 !! get_category_file_path category = Some (File old true false)).
  { simpl. by rewrite lookup_insert_ne by apply StorageFacts.backup_path_ne. }
  unfold write_text. rewrite Hf1. exists w1, r. split_and!; [done| |done|done].
  simpl. apply lookup_insert_eq.
Qed.

(** *** Timestamped backups *)

Lemma backup_category_cases (now : datetime) (category : string) (w : world) :
  backup_category now category w
  = match files w !! get_category_file_path category with
    | None => (Ret false, w)
    | Some nd =>
        if Str.contains "/" category then (Raise ValueError, w)
        else
          match nd with
          | File text true _ =>
              match write_text w (timestamped_name category now)
                               (universal_newlines text) with
              | Ret w1 => (Ret true, w1)
              | Raise _ => (Ret false, w)
              end
          | _ => (Ret false, w)
          end
    end.
Proof.
  unfold backup_category, copy_text, io_try.
  unfold mbind, io_bind, reading, writing, mret, io_ret, exists_, read_text.
  cbv beta zeta.
  destruct (files w !! get_category_file_path category) as [nd|] eqn:Hf.
  - rewrite bool_decide_eq_true_2 by eauto. cbv beta iota.
    change (negb true) with false. cbv beta iota.
    fold (timestamped_name category now).
    rewrite PathFacts.with_name_timestamped.
    destruct (Str.contains "/" category); [done|]. simpl negb. cbv beta iota. rewrite Hf.
    destruct nd as [text [|] wr|]; [|done|done].
    by destruct (write_text w _ _).
  - by rewrite bool_decide_eq_false_2 by by intros [? ?].
Qed.



End StoreMore.

(** ** Backups as categories *)

Module BackupMore.
Import Fs PromptStorage Words.

Lemma timestamped_key_no_slash (category : string) (now : datetime) :
  Str.contains "/" (timestamped_key category now) = Str.contains "/" category.
Proof.
  unfold timestamped_key. rewrite !PathFacts.contains_app, PathFacts.strftime_no_slash.
  simpl. by rewrite !orb_false_r.
Qed.

Lemma timestamped_key_ne (category : string) (now : datetime) :
  timestamped_key category now ≠ "".
Proof. unfold timestamped_key. by destruct category. Qed.

(** X15. A timestamped backup is a category of its own.  After a save
    that returned [True] and a timestamped backup that returned [True],
    the key made of the saved key, an underscore, the time and [.backup]
    loads the saved category, and [list_categories] holds that key; the
    saved key still loads the category.  (The backup file is new, or it
    replaces one this process may read.) *)
Theorem backup_loads_as_category (now : datetime) (w w1 w2 : world)
    (category : string) (C : PromptCategory.t) :
  Dict.wf (PromptCategory.templates C) →
  Str.contains "/" category = false →
  save_category category C w = (Ret true, w1) →
  files w1 !! timestamped_name category now = None
    ∨ readable_at w1 (timestamped_name category now) →
  backup_category now category w1 = (Ret true, w2) →
  get_category w2 (timestamped_key category now) = Ret (Some C)
  ∧ timestamped_key category now ∈ list_categories w2
  ∧ get_category w2 category = Ret (Some C).
Proof.
  intros Hwf Hslash Hfile%StorageFacts.save_category_file Hplace Hb.
  rewrite StoreMore.backup_category_cases, Hfile, Hslash in Hb.
  assert (Hw : write_text w1 (timestamped_name category now)
                 (universal_newlines (Json.dumps (category_data C))) = Ret w2).
  { destruct (write_text w1 _ _); by inversion Hb. }
  clear Hb.
  rewrite FsFacts.universal_newlines_dumps in Hw
    by by apply StorageFacts.plain_category_data.
  assert (Hfiles : files w2 = <[timestamped_name category now
                     := File (Json.dumps (category_data C)) true true]> (files w1)).
  { revert Hw. unfold write_text, readable_at in *.
    destruct (files w1 !! timestamped_name category now) as [[oldb rb [|]|]|];
      try done; intros [= <-]; [|done].
    destruct Hplace as [? | ->]; done. }
  assert (Hcopy : files w2 !! get_category_file_path (timestamped_key category now)
                  = Some (File (Json.dumps (category_data C)) true true)).
  { rewrite PathFacts.timestamped_name_key, Hfiles. apply lookup_insert_eq. }
  split_and!.
  - by apply (StorageFacts.get_category_saved _ _ _ true).
  - apply StorageFacts.elem_of_list_categories.
    exists (get_category_file_path (timestamped_key category now)). split_and!.
    + rewrite Hcopy. eauto.
    + unfold get_category_file_path.
      by rewrite PathFacts.contains_app, timestamped_key_no_slash, Hslash.
    + apply PathFacts.endswith_app.
    + symmetry. apply PathFacts.stem_json.
      * by rewrite timestamped_key_no_slash.
      * apply timestamped_key_ne.
  - apply (StorageFacts.get_category_saved _ _ _ true); [done|].
    rewrite Hfiles, lookup_insert_ne; [done|]. apply PathFacts.timestamped_name_ne.
Qed.

End BackupMore.

(** ** Distinct keys and the summary *)

Module SummaryFacts.
Import Fs PromptStorage Words.

Lemma endswith_inv (s ext : string) :
  Str.endswith s ext = true → ∃ base, s = base +:+ ext.
Proof.
  induction s as [|c s IH]; simpl.
  - case_bool_decide as H; [|done]. intros _. exists "". by rewrite <- H.
  - case_bool_decide as H; [intros _; exists ""; by rewrite <- H|].
    intros (base & ->)%IH. exists (String c base). by rewrite StrFacts.app_cons.
Qed.

Lemma stem_dot_json : stem ".json" = ".json".
Proof. reflexivity. Qed.

(** The stem of an entry of the directory whose name ends with
    [.json]: the name without the extension, but all of the name
    [.json]. *)
Lemma stem_entry (base : string) :
  Str.contains "/" (base +:+ ".json") = false →
  stem (base +:+ ".json") = if bool_decide (base = "") then ".json" else base.
Proof.
  intros Hslash. case_bool_decide as Hb; [by subst|].
  apply PathFacts.stem_json; [|done].
  rewrite PathFacts.contains_app in Hslash. by apply orb_false_iff in Hslash as [? _].
Qed.

(** *** The summary *)

Section dict.
Context {V : Type}.
Implicit Types (d l : list (string * V)).

Lemma get_set d (k k' : string) (v : V) :
  Dict.get (Dict.set d k v) k' = if bool_decide (k = k') then Some v else Dict.get d k'.
Proof.
  induction d as [|[k0 v0] d IH]; simpl.
  - done.
  - destruct (bool_decide (k0 = k)) eqn:Hk; simpl.
    + apply bool_decide_eq_true in Hk as ->. by case_bool_decide.
    + apply bool_decide_eq_false in Hk. rewrite IH.
      repeat case_bool_decide; subst; done.
Qed.




(** Looking up in a dictionary filled from pairs that give each key one
    value. *)
Lemma get_foldl_set l d (k : string) (v : V) :
  (∀ k v v', (k, v) ∈ l → (k, v') ∈ l → v = v') →
  Dict.get (foldl (λ d kv, Dict.set d kv.1 kv.2) d l) k = Some v
  ↔ (k, v) ∈ l ∨ (¬ (k ∈ Dict.keys l) ∧ Dict.get d k = Some v).
Proof.
  unfold Dict.keys. revert d. induction l as [|[k0 v0] l IH]; intros d Hfun; simpl.
  { split; [intros ?; right; split; [apply not_elem_of_nil|done]|].
    intros [[]%elem_of_nil | [_ ?]]. done. }
  rewrite IH by (intros ??? ??; eapply Hfun; by apply list_elem_of_further).
  rewrite get_set. rewrite !elem_of_cons. split.
  - intros [? | [Hk Hget]]; [left; by right|].
    case_bool_decide as Hk0.
    + subst. injection Hget as ->. left. by left.
    + right. split; [|done]. intros [?|?]; by subst.
  - intros [[[= -> ->] | Hin] | [Hk Hget]].
    + destruct (decide (k0 ∈ l.*1)) as [Hl|Hl].
      * apply list_elem_of_fmap in Hl as ([k' v'] & -> & Hl). left. simpl.
        rewrite (Hfun k' v0 v'); [done|by left|by right].
      * right. split; [done|]. by rewrite bool_decide_eq_true_2.
    + by left.
    + right. split; [intros ?; apply Hk; by right|].
      rewrite bool_decide_eq_false_2; [done|]. intros ->. apply Hk. by left.
Qed.

End dict.

(** The loop, whatever the names. *)
Lemma summarize_loop_eq (w : world) (names : list string)
    (all_prompts : list (string * category_summary)) (total : nat) :
  summarize_loop w names all_prompts total
  = Ret (foldl (λ d kv, Dict.set d kv.1 kv.2) all_prompts (summaries w names),
         (total + sum_list (template_count <$> (summaries w names).*2))%nat).
Proof.
  revert all_prompts total. induction names as [|name names IH]; intros all total.
  { simpl. by rewrite Nat.add_0_r. }
  change (summarize_loop w (name :: names) all total)
    with (category ← get_category w name;
          match category with
          | Some C =>
              summarize_loop w names (Dict.set all name (summary_of C))
                             (total + length (PromptCategory.templates C))%nat
          | None => summarize_loop w names all total
          end).
  rewrite StorageFacts.summaries_cons.
  destruct (StorageFacts.get_category_returns w name) as [[C|] ->]; simpl.
  - rewrite IH. do 2 f_equal. by rewrite <- Nat.add_assoc.
  - apply IH.
Qed.

Lemma elem_of_summaries (w : world) (names : list string) (name : string)
    (s : category_summary) :
  (name, s) ∈ summaries w names
  ↔ name ∈ names ∧ ∃ C, get_category w name = Ret (Some C) ∧ s = summary_of C.
Proof.
  unfold summaries. rewrite list_elem_of_omap. split.
  - intros (x & Hx & Hs). destruct (get_category w x) as [[C|]|] eqn:Hg; try done.
    injection Hs as <- <-. eauto.
  - intros (Hn & C & Hg & ->). exists name. by rewrite Hg.
Qed.


(** The entries of the dictionary the loop fills. *)
Lemma get_all_prompts_get (w : world) (names : list string) (name : string)
    (s : category_summary) :
  Dict.get (foldl (λ d kv, Dict.set d kv.1 kv.2) [] (summaries w names)) name = Some s
  ↔ name ∈ names ∧ ∃ C, get_category w name = Ret (Some C) ∧ s = summary_of C.
Proof.
  rewrite get_foldl_set.
  - rewrite elem_of_summaries. split; [|by left].
    by intros [? | [_ ?]].
  - intros k v v' (_ & C & HC & ->)%elem_of_summaries
      (_ & C' & HC' & ->)%elem_of_summaries.
    rewrite HC in HC'. by injection HC' as <-.
Qed.


(** X17. When the keys are distinct.  Two entries of the directory
    give the same key only when they are [.json] and [.json.json].
    Unless both are there, [list_categories] lists no key twice, and the
    totals of [get_all_prompts] agree with its entries: the entries are
    those of the keys that load, in the order listed, and
    [total_templates] is the sum of their [template_count]. *)
Theorem distinct_keys_and_totals (w : world) :
  ¬ (is_Some (files w !! ".json") ∧ is_Some (files w !! ".json.json")) →
  NoDup (list_categories w)
  ∧ ∃ r, get_all_prompts w = Ret r
      ∧ categories r = summaries w (list_categories w)
      ∧ total_categories r = length (categories r)
      ∧ total_templates r = sum_list (template_count <$> (categories r).*2).
Proof.
  intros Hpair.
  assert (Hnd : NoDup (list_categories w)).
  { rewrite StoreMore.list_categories_perm.
    apply NoDup_fmap_2_strong; [|apply StoreMore.glob_ext_NoDup].
    intros p q [Hp [Hps Hpe]]%StoreMore.elem_of_glob_ext
      [Hq [Hqs Hqe]]%StoreMore.elem_of_glob_ext Heq.
    apply endswith_inv in Hpe as [a ->]. apply endswith_inv in Hqe as [b ->].
    rewrite !stem_entry in Heq by done.
    repeat case_bool_decide; subst; try done.
    - destruct Hpair. by split.
    - destruct Hpair. by split. }
  split; [done|].
  rewrite (StorageFacts.get_all_prompts_distinct w Hnd).
  eexists. split; [reflexivity|]. by simpl.
Qed.

Lemma convert_templates_raise (entries : list (string * Json.value))
    (templates : list (string * PromptTemplate.t)) (name : string)
    (template_data : Json.value) (e : exn) :
  (name, template_data) ∈ entries →
  make_template template_data = Raise e →
  ∃ e', convert_templates entries templates = Raise e'.
Proof.
  revert templates. induction entries as [|[n td] entries IH]; intros templates Hin Hraise.
  { by apply elem_of_nil in Hin. }
  change (convert_templates ((n, td) :: entries) templates)
    with (template ← make_template td;
          convert_templates entries (Dict.set templates n template)).
  apply elem_of_cons in Hin as [[= <- <-] | Hin].
  - rewrite Hraise. by exists e.
  - destruct (make_template td) as [t|e0]; [|by exists e0].
    by apply IH.
Qed.

Lemma make_template_lacks_content (template_data : Json.value) :
  lacks_content template_data → ∃ e, make_template template_data = Raise e.
Proof.
  destruct template_data as [| | | | | |fields]; simpl; try by eauto.
  intros ->. by eauto.
Qed.

(** X18. One template without content hides its category.  When the
    file under a key is read and is a JSON object whose [templates]
    holds an entry that is no object, or an object without [content],
    [get_category] returns [None] for the key, whatever the other
    entries are, and [get_all_prompts] has no entry under the key. *)
Theorem invalid_template_hides_category (w : world) (category text : string)
    (writable : bool) (fields entries : list (string * Json.value))
    (name : string) (template_data : Json.value) :
  files w !! get_category_file_path category = Some (File text true writable) →
  Json.loads (universal_newlines text) = Some (Json.Obj fields) →
  Dict.get fields "templates" = Some (Json.Obj entries) →
  (name, template_data) ∈ entries →
  lacks_content template_data →
  get_category w category = Ret None
  ∧ ∃ r, get_all_prompts w = Ret r ∧ Dict.get (categories r) category = None.
Proof.
  intros Hf Hl Ht Hin [e Hraise]%make_template_lacks_content.
  assert (Hnone : get_category w category = Ret None).
  { rewrite StorageFacts.get_category_load by (rewrite Hf; eauto).
    unfold load_category. rewrite (StorageFacts.read_text_file _ _ _ _ Hf).
    simpl. unfold decode_category. rewrite Hl. simpl. rewrite Ht. simpl.
    destruct (convert_templates_raise entries [] name template_data e Hin Hraise)
      as [e' ->]. done. }
  split; [done|].
  unfold get_all_prompts. rewrite summarize_loop_eq. simpl.
  eexists. split; [reflexivity|]. simpl.
  destruct (Dict.get _ category) as [s|] eqn:Hs; [|done].
  apply get_all_prompts_get in Hs as (_ & C & HC & _). by rewrite Hnone in HC.
Qed.

End SummaryFacts.

(** ** The endpoints *)

Module AppFacts.
Import Fs PromptStorage Words App.



Lemma update_prompt_category_unfold (now : datetime) (category : string)
    (request : PromptUpdateRequest.t) (w : world) :
  update_prompt_category now category request w
  = match backup_category now category w with
    | (Ret _, w1) =>
        match save_category category (PromptUpdateRequest.data request) w1 with
        | (Ret true, w2) =>
            (Respond (Json.Obj [("success", Json.Bool true);
                                ("message",
                                 Json.Str ("Category '" +:+ category +:+
                                           "' updated successfully"))]), w2)
        | (Ret false, w2) => (Fail 500 "Failed to save category", w2)
        | (Raise e, w2) => (Fail 500 (str_exn e), w2)
        end
    | (Raise e, w1) => (Fail 500 (str_exn e), w1)
    end.
Proof.
  unfold update_prompt_category, guarded, call, raise.
  unfold mbind, block_bind, mret, block_ret.
  destruct (backup_category now category w) as [[status|e] w1]; [|done].
  by destruct (save_category category (PromptUpdateRequest.data request) w1)
    as [[[|]|e] w2].
Qed.

(** X19. Update, then get.  When [update_prompt_category] answers with
    its message, [get_prompt_category] on the same key answers with the
    category of the request. *)
Theorem update_then_get (now : datetime) (category : string)
    (request : PromptUpdateRequest.t) (w w' : world) (content : Json.value) :
  Dict.wf (PromptCategory.templates (PromptUpdateRequest.data request)) →
  update_prompt_category now category request w = (Respond content, w') →
  get_prompt_category category w'
  = (Respond (Json.Obj [("success", Json.Bool true);
                        ("category", category_dict (PromptUpdateRequest.data request))]),
     w').
Proof.
  intros Hwf. rewrite update_prompt_category_unfold.
  destruct (backup_category now category w) as [[status|e] w1]; [|done].
  destruct (save_category category (PromptUpdateRequest.data request) w1)
    as [[[|]|e] w2] eqn:Hsave; [|done|done].
  intros [= _ <-].
  pose proof (StorageFacts.save_category_file _ _ _ _ Hsave) as Hfile.
  unfold get_prompt_category, guarded, call, reading.
  unfold mbind, block_bind, mret, block_ret.
  by rewrite (StorageFacts.get_category_saved _ _ _ true Hwf Hfile).
Qed.






Section test.
Context (L : set_layout) {V : Type} `{PyStr V}.


End test.


End AppFacts.

(** ** The properties on sample values *)

Module MoreCases.
Import Fs PromptStorage Template Words.

(** [$name] before a comma. *)
Lemma named_placeholder_rendering_witness :
  safe_substitute Example.ada ("Hello " +:+ "$" +:+ "name" +:+ ", welcome")
  = "Hello " +:+ value_or Example.ada "name" ("$" +:+ "name")
    +:+ safe_substitute Example.ada ", welcome"
  ∧ placeholders ("Hello " +:+ "$" +:+ "name" +:+ ", welcome")
    = "name" :: placeholders ", welcome".
Proof.
  apply (PlaceholderFacts.named_placeholder_rendering string _ Example.ada
           "Hello " "name" ", welcome").
  - reflexivity.
  - reflexivity.
  - reflexivity.
Defined.

(** [${name}] before a letter. *)
Lemma braced_placeholder_rendering_witness :
  safe_substitute Example.ada ("Hello " +:+ "${" +:+ "name" +:+ "}" +:+ "s")
  = "Hello " +:+ value_or Example.ada "name" ("${" +:+ "name" +:+ "}")
    +:+ safe_substitute Example.ada "s"
  ∧ placeholders ("Hello " +:+ "${" +:+ "name" +:+ "}" +:+ "s")
    = "name" :: placeholders "s".
Proof.
  apply (PlaceholderFacts.braced_placeholder_rendering string _ Example.ada
           "Hello " "name" "s").
  - reflexivity.
  - reflexivity.
Defined.


Lemma render_without_placeholders_witness :
  render sorted_layout "Say hello" Example.ada
  = Success "Say hello" [] [] (set_iter sorted_layout (map_to_list Example.ada).*1).
Proof.
  apply (RenderMore.render_without_placeholders sorted_layout string _).
  reflexivity.
Defined.

(** The template [hello] of the sample category, and a name it has no
    template under. *)
Lemma rendering_after_save_witness :
  test_prompt_rendering sorted_layout Sample.saved "greet" "hello" Example.ada
  = Ret (render sorted_layout "Hello $name, you are ${age}" Example.ada)
  ∧ test_prompt_rendering sorted_layout Sample.saved "greet" "bye" Example.ada
    = Ret (Failure "Template 'bye' not found in category 'greet'").
Proof.
  assert (Hwf : Dict.wf (PromptCategory.templates Sample.greetings)).
  { apply (bool_decide_unpack _). vm_compute. exact I. }
  assert (Hsave : save_category "greet" Sample.greetings Sample.empty_world
                  = (Ret true, Sample.saved)).
  { vm_compute. reflexivity. }
  split.
  - exact (RenderMore.rendering_after_save sorted_layout string _ _ _ _ _
             Example.ada "hello" Hwf Hsave).
  - exact (RenderMore.rendering_after_save sorted_layout string _ _ _ _ _
             Example.ada "bye" Hwf Hsave).
Defined.

Lemma saved_category_is_listed_witness : "greet" ∈ list_categories Sample.saved.
Proof.
  apply (StoreMore.saved_category_is_listed Sample.empty_world Sample.saved "greet"
           Sample.greetings).
  - reflexivity.
  - discriminate.
  - vm_compute. reflexivity.
Defined.


Lemma save_over_unreadable_witness :
  save_category "greet" Sample.greetings Example.unreadable_world
  = (Ret false, Example.unreadable_world).
Proof.
  apply (StoreMore.save_over_unreadable Example.unreadable_world "greet" Sample.greetings).
  - vm_compute. eauto.
  - vm_compute. discriminate.
Defined.

Lemma save_over_read_only_witness :
  ∃ w' readable,
    save_category "greet" Sample.greetings Example.read_only_world = (Ret false, w')
    ∧ files w' !! backup_path "greet"
      = Some (File (universal_newlines (Json.dumps (category_data Sample.farewells)))
                   readable true)
    ∧ files w' !! get_category_file_path "greet"
      = Some (File (Json.dumps (category_data Sample.farewells)) true false)
    ∧ journal w'
      = journal Example.read_only_world
        ++ [Wrote (backup_path "greet")
                  (universal_newlines (Json.dumps (category_data Sample.farewells)))].
Proof.
  apply (StoreMore.save_over_read_only Example.read_only_world "greet").
  - vm_compute. reflexivity.
  - vm_compute. exact I.
Defined.



Lemma backup_loads_as_category_witness :
  get_category Sample.backed_up (timestamped_key "greet" Sample.now)
  = Ret (Some Sample.greetings)
  ∧ timestamped_key "greet" Sample.now ∈ list_categories Sample.backed_up
  ∧ get_category Sample.backed_up "greet" = Ret (Some Sample.greetings).
Proof.
  apply (BackupMore.backup_loads_as_category Sample.now Sample.empty_world Sample.saved).
  - apply (bool_decide_unpack _). vm_compute. exact I.
  - reflexivity.
  - vm_compute. reflexivity.
  - left. vm_compute. reflexivity.
  - vm_compute. reflexivity.
Defined.

Lemma distinct_keys_and_totals_witness :
  NoDup (list_categories Sample.backed_up)
  ∧ ∃ r, get_all_prompts Sample.backed_up = Ret r
      ∧ categories r = summaries Sample.backed_up (list_categories Sample.backed_up)
      ∧ total_categories r = length (categories r)
      ∧ total_templates r = sum_list (template_count <$> (categories r).*2).
Proof.
  apply (SummaryFacts.distinct_keys_and_totals Sample.backed_up).
  intros [[nd Hnd] _]. vm_compute in Hnd. discriminate Hnd.
Defined.

(** The template [bad] of the sample document has no content. *)
Lemma invalid_template_hides_category_witness :
  get_category Example.broken_world "broken" = Ret None
  ∧ ∃ r, get_all_prompts Example.broken_world = Ret r
      ∧ Dict.get (categories r) "broken" = None.
Proof.
  apply (SummaryFacts.invalid_template_hides_category Example.broken_world "broken"
           (Json.dumps Example.broken_document) true
           [("templates",
             Json.Obj [("good", Json.Obj [("content", Json.Str "hi")]);
                       ("bad", Json.Obj [("description", Json.Str "no content")])])]
           [("good", Json.Obj [("content", Json.Str "hi")]);
            ("bad", Json.Obj [("description", Json.Str "no content")])]
           "bad" (Json.Obj [("description", Json.Str "no content")])).
  - reflexivity.
  - vm_compute. reflexivity.
  - reflexivity.
  - apply list_elem_of_further, list_elem_of_here.
  - reflexivity.
Defined.

Lemma update_then_get_witness :
  App.get_prompt_category "greet"
    (App.update_prompt_category Sample.now "greet" Example.update_request Sample.saved).2
  = (App.Respond (Json.Obj [("success", Json.Bool true);
                        ("category", App.category_dict Sample.farewells)]),
     (App.update_prompt_category Sample.now "greet" Example.update_request Sample.saved).2).
Proof.
  apply (AppFacts.update_then_get Sample.now "greet" Example.update_request Sample.saved _
           (Json.Obj [("success", Json.Bool true);
                      ("message", Json.Str "Category 'greet' updated successfully")])).
  - apply (bool_decide_unpack _). vm_compute. exact I.
  - vm_compute. reflexivity.
Defined.




End MoreCases.
